(** * MWZ onboarding API: the Express gateway in front of a repository
      content store

    A shallow embedding of [mwz_onboarding_api_node_js_express.js]:
    the key normaliser [slugify], the content-store client
    ([githubGetContent], [githubUpsertFile]), the shared-secret
    middleware and the three route handlers, followed by the properties
    the specification states about them. *)

From Stdlib Require Import NArith List String Ascii Bool Lia PrimFloat DecimalString.
From stdpp Require Import base option list gmap.
Import ListNotations.

#[local] Set Warnings "-register-all".
Local Open Scope N_scope.

(** ** JavaScript strings

    A JavaScript string is a sequence of UTF-16 code units; the regular
    expressions of the source carry no [u] flag, so they too see code
    units. *)

Abbreviation jsstring := (list N).

(** ASCII literals, for readability. *)
Definition str (s : string) : jsstring :=
  map N_of_ascii (list_ascii_of_string s).
Arguments str s%_string.

Definition hyphen : N := 45.
Definition comma : N := 44.

(** The class [[a-z0-9]] of the first regular expression of [slugify]. *)
Definition isAlnum (c : N) : bool :=
  ((97 <=? c) && (c <=? 122)) || ((48 <=? c) && (c <=? 57)).

(** [WhiteSpace] and [LineTerminator] of ECMA-262, the code units that
    [String.prototype.trim] strips. *)
Definition isWhiteSpace (c : N) : bool :=
  ((9 <=? c) && (c <=? 13)) || (c =? 32) || (c =? 160) || (c =? 5760)
  || ((8192 <=? c) && (c <=? 8202)) || (c =? 8232) || (c =? 8233)
  || (c =? 8239) || (c =? 8287) || (c =? 12288) || (c =? 65279).

Fixpoint dropWhile (p : N -> bool) (s : jsstring) : jsstring :=
  match s with
  | [] => []
  | c :: t => if p c then dropWhile p t else s
  end.

(** [s.trim()] *)
Definition trim (s : jsstring) : jsstring :=
  rev (dropWhile isWhiteSpace (rev (dropWhile isWhiteSpace s))).

Definition isAscii (c : N) : bool := c <? 128.

Definition asciiLower (c : N) : N :=
  if (65 <=? c) && (c <=? 90) then c + 32 else c.

(** [s.replace(/[^a-z0-9]+/g, '-')]: every maximal run of code units
    outside [[a-z0-9]] becomes one hyphen.  [inRun] records that the
    previous code unit already belonged to the run being replaced. *)
Fixpoint replaceRuns (inRun : bool) (s : jsstring) : jsstring :=
  match s with
  | [] => []
  | c :: t =>
      if isAlnum c then c :: replaceRuns false t
      else if inRun then replaceRuns true t
      else hyphen :: replaceRuns true t
  end.

(** [s.replace(/(^-|-$)+/g, '')].  The alternative [^-] can only match at
    index 0 and [-$] only at the last index, so a match of the repeated
    group is a hyphen at index 0 (followed by the last hyphen when the
    whole string is "--") or the hyphen at the last index: the
    replacement removes one leading hyphen, then one trailing hyphen. *)
Definition dropLeadingHyphen (s : jsstring) : jsstring :=
  match s with
  | c :: t => if c =? hyphen then t else s
  | [] => []
  end.

Fixpoint dropTrailingHyphen (s : jsstring) : jsstring :=
  match s with
  | [] => []
  | [c] => if c =? hyphen then [] else [c]
  | c :: t => c :: dropTrailingHyphen t
  end.

Definition stripEdgeHyphens (s : jsstring) : jsstring :=
  dropTrailingHyphen (dropLeadingHyphen s).

(** ** JavaScript values

    The values the program handles are JSON documents (a parsed request
    body, a parsed backend response) and [undefined] for what is missing.
    An object lists its properties in order, one per name. *)

Inductive value : Type :=
| VUndefined
| VNull
| VBool (b : bool)
| VNumber (n : float)
| VString (s : jsstring)
| VArray (items : list value)
| VObject (props : list (jsstring * value)).

(** Exceptions: what [throw new Error(msg)] and the runtime raise. *)
Record Exn : Type := MkExn { exnName : jsstring; exnMessage : jsstring }.

Inductive Result (A : Type) : Type :=
| Ok (a : A)
| Err (e : Exn).
Arguments Ok {A} a.
Arguments Err {A} e.

Definition typeError (msg : string) : Exn := MkExn (str "TypeError") (str msg).

(** ToBoolean: [undefined], [null], [false], [0], [-0], [NaN] and the
    empty string are falsy, everything else is truthy. *)
Definition truthy (v : value) : bool :=
  match v with
  | VUndefined | VNull => false
  | VBool b => b
  | VNumber n => negb (is_zero n || is_nan n)
  | VString s => match s with [] => false | _ => true end
  | VArray _ | VObject _ => true
  end.

(** [a || b] *)
Definition jsOr (a b : value) : value := if truthy a then a else b.

Fixpoint lookupProp (k : jsstring) (props : list (jsstring * value)) : option value :=
  match props with
  | [] => None
  | (k', v) :: rest => if decide (k = k') then Some v else lookupProp k rest
  end.

(** [v?.k] for a name [k] that no built-in prototype defines (the
    program reads [profile], [checks], [discord], [sha], [content] and
    [commit]): the own property of an object, and [undefined] for any
    other value.  It is [v.k] when [v] is neither [null] nor
    [undefined]. *)
Definition getProp (v : value) (k : string) : value :=
  match v with
  | VObject props => default VUndefined (lookupProp (str k) props)
  | _ => VUndefined
  end.

(** [v.k] in general: reading a property of [null] or [undefined]
    throws. *)
Definition member (v : value) (k : string) : Result value :=
  match v with
  | VUndefined | VNull =>
      Err (typeError "Cannot read properties of null or undefined")
  | _ => Ok (getProp v k)
  end.

(** ** The content store's HTTP interface

    A call is recorded by what it carries: the path and the ref of a
    read, the path and the JSON body of a write.  One repository is
    configured at start-up, so its owner, name and token, which only
    enter the URL and the headers, are left out.  Paths and refs are
    well-formed strings (a key is ASCII, the configuration comes from
    the environment), on which [encodeURIComponent] does not throw. *)

Record PutBody : Type := MkPutBody {
  body_message : jsstring;
  body_content : jsstring;
  body_branch : jsstring;
  body_sha : option value
}.

Inductive Request : Type :=
| ReqGet (path ref : jsstring)
| ReqPut (path : jsstring) (body : PutBody).

(** A response: [text] is the raw body, [json] the document it parses
    to, when it does. *)
Record Response : Type := MkResponse {
  status : N;
  text : jsstring;
  json : option value
}.

(** [resp.ok] *)
Definition ok (resp : Response) : bool :=
  (200 <=? status resp) && (status resp <=? 299).

(** [await resp.json()] *)
Definition respJson (resp : Response) : Result value :=
  match json resp with
  | Some doc => Ok doc
  | None => Err (MkExn (str "SyntaxError") (str "Unexpected token in JSON"))
  end.

(** A number in a template literal; a status is a natural number. *)
Definition decimal (n : N) : jsstring := str (NilZero.string_of_uint (N.to_uint n)).

(** ** Asynchronous programs

    An [async] function is a tree: it returns, throws, or awaits
    [fetch] and goes on with what the backend answered (a response, or
    the rejection of the promise). *)

Inductive Prog (A : Type) : Type :=
| Ret (a : A)
| Throw (e : Exn)
| Fetch (rq : Request) (k : Result Response -> Prog A).
Arguments Ret {A} a.
Arguments Throw {A} e.
Arguments Fetch {A} rq k.

Fixpoint bind {A B : Type} (p : Prog A) (f : A -> Prog B) : Prog B :=
  match p with
  | Ret a => f a
  | Throw e => Throw e
  | Fetch rq k => Fetch rq (fun r => bind (k r) f)
  end.

(** [try { p } catch (err) { h err }] *)
Fixpoint tryCatch {A : Type} (p : Prog A) (h : Exn -> Prog A) : Prog A :=
  match p with
  | Ret a => Ret a
  | Throw e => h e
  | Fetch rq k => Fetch rq (fun r => tryCatch (k r) h)
  end.

Definition lift {A : Type} (r : Result A) : Prog A :=
  match r with
  | Ok a => Ret a
  | Err e => Throw e
  end.

(** [await fetch(...)] *)
Definition fetch (rq : Request) : Prog Response := Fetch rq lift.

Notation "'let*' x := p 'in' q" := (bind p (fun x => q))
  (at level 10, x name, p at level 100, q at level 200).

(** Running a program against a backend: [transport] answers a call in
    a state of the world and gives the next state.  A run records the
    outcome, the final state and the calls made, in order. *)

Record Run (W A : Type) : Type := MkRun {
  outcome : Result A;
  world : W;
  calls : list Request
}.
Arguments MkRun {W A} outcome world calls.
Arguments outcome {W A} r.
Arguments world {W A} r.
Arguments calls {W A} r.

Fixpoint exec {W A : Type} (transport : Request -> W -> Result Response * W)
    (p : Prog A) (w : W) : Run W A :=
  match p with
  | Ret a => MkRun (Ok a) w []
  | Throw e => MkRun (Err e) w []
  | Fetch rq k =>
      let '(r, w1) := transport rq w in
      let run := exec transport (k r) w1 in
      MkRun (outcome run) (world run) (rq :: calls run)
  end.

(** A run that comes after the calls [made]. *)
Definition prefixRun {W A : Type} (made : list Request) (r : Run W A) : Run W A :=
  MkRun (outcome r) (world r) (made ++ calls r).

(** The run of [p] followed by the run of what comes next: of the
    continuation when [p] returned, of the handler when it threw. *)
Definition thenRun {W A B : Type} (first : Run W A) (next : A -> W -> Run W B)
    : Run W B :=
  match outcome first with
  | Ok a => prefixRun (calls first) (next a (world first))
  | Err e => MkRun (Err e) (world first) (calls first)
  end.

Definition catchRun {W A : Type} (first : Run W A) (handler : Exn -> W -> Run W A)
    : Run W A :=
  match outcome first with
  | Ok a => first
  | Err e => prefixRun (calls first) (handler e (world first))
  end.

(** ** Configuration and replies *)

Record Config : Type := MkConfig {
  API_KEY : jsstring;
  GITHUB_BRANCH : jsstring;
  GITHUB_DIR : jsstring
}.

(** The defaults of lines 20 to 28. *)
Definition defaultConfig : Config :=
  MkConfig [] (str "main") (str "saves").

(** What a handler answers: [res.status(s).json(v)], or [res.send(t)]
    with a [Content-Type] header. *)
Inductive Reply : Type :=
| ReplyJson (code : N) (body : value)
| ReplySend (code : N) (contentType : jsstring) (body : jsstring).

Definition errorBody (msg : jsstring) : value :=
  VObject [(str "error", VString msg)].

(** [String(err.message || err)]: the message, or, when it is empty,
    what [Error.prototype.toString] gives, the name. *)
Definition errorText (e : Exn) : jsstring :=
  match exnMessage e with
  | [] => exnName e
  | m => m
  end.

(** A request as the shared-secret middleware receives it: CORS and the
    JSON body parser have run, and the router has found the route. *)
Inductive Endpoint : Type :=
| GetHealth
| PostSave (body : value)
| GetLoad (slug : jsstring).

Record HttpRequest : Type := MkHttpRequest {
  apiKeyHeader : option jsstring;
  endpoint : Endpoint
}.

(** ** The pattern of a storage key

    Regular expressions over code units, with the usual matching
    relation; [^] and [$] of the pattern are the match of the whole
    string. *)

Inductive regex : Type :=
| Class (p : N -> bool)
| Lit (c : N)
| Cat (r1 r2 : regex)
| Star (r : regex).

Definition Plus (r : regex) : regex := Cat r (Star r).

Inductive Matches : regex -> jsstring -> Prop :=
| MClass p c : p c = true -> Matches (Class p) [c]
| MLit c : Matches (Lit c) [c]
| MCat r1 r2 s1 s2 :
    Matches r1 s1 -> Matches r2 s2 -> Matches (Cat r1 r2) (s1 ++ s2)
| MStarNil r : Matches (Star r) []
| MStarApp r s1 s2 :
    Matches r s1 -> Matches (Star r) s2 -> Matches (Star r) (s1 ++ s2).

(** [^[a-z0-9]+(-[a-z0-9]+)*$] *)
Definition slugPattern : regex :=
  Cat (Plus (Class isAlnum))
      (Star (Cat (Lit hyphen) (Plus (Class isAlnum)))).

(** The automaton of [slugPattern]: two states, "a group is open"
    (accepting) and "a group must start"; [opened] tells which.  With
    [strict := false] the end of the string is accepted in both states,
    which also admits one trailing hyphen. *)
Fixpoint hyphenated (strict opened : bool) (s : jsstring) : bool :=
  match s with
  | [] => opened || negb strict
  | c :: t =>
      if isAlnum c then hyphenated strict true t
      else if (c =? hyphen) && opened then hyphenated strict false t
      else false
  end.

Definition isSlug (s : jsstring) : bool := hyphenated true false s.

(** What remains to be read in each state of the automaton. *)
Definition groupsTail : regex := Star (Cat (Lit hyphen) (Plus (Class isAlnum))).

Definition toRead (opened : bool) : regex :=
  if opened then Cat (Star (Class isAlnum)) groupsTail else slugPattern.

(** A code unit of a storage key: a lowercase letter, a digit or the
    hyphen. *)
Definition keyUnit (c : N) : Prop := isAlnum c = true \/ c = hyphen.

(** ** A backend that answers from a script

    The world is the list of answers still to give; a call past the end
    of the script fails like an unreachable host. *)

Definition networkError : Exn := MkExn (str "FetchError") (str "request failed").

Definition scripted (rq : Request) (script : list (Result Response))
    : Result Response * list (Result Response) :=
  match script with
  | [] => (Err networkError, [])
  | r :: rest => (r, rest)
  end.

Section Gateway.

(** *** The platform

    Functions of the JavaScript runtime that the program calls, whose
    tables or algorithms are not part of the repository. *)

(** Unicode lower-casing of a string that has a code unit outside
    ASCII. *)
Variable unicodeLower : jsstring -> jsstring.

(** [Number.prototype.toString]. *)
Variable numberToString : float -> jsstring.

(** [JSON.stringify(v, null, 2)] of a value other than [undefined]. *)
Variable JSON_stringify : value -> jsstring.

(** [Buffer.from(s).toString('base64')] and
    [Buffer.from(s, 'base64').toString('utf8')]. *)
Variable toBase64 : jsstring -> jsstring.
Variable fromBase64 : jsstring -> jsstring.

(** [Buffer.from(v, 'base64').toString('utf8')] for a [v] that is not a
    string: a byte array for an array of numbers, a [TypeError] for
    [undefined]. *)
Variable bufferFromOther : value -> Result jsstring.

(** The configuration read from the environment at start-up. *)
Variable cfg : Config.

(** *** Key normaliser *)

(** [s.toLowerCase()]: on ASCII it maps [A-Z] to [a-z]. *)
Definition toLowerCase (s : jsstring) : jsstring :=
  if forallb isAscii s then map asciiLower s else unicodeLower s.

(** [String(v)] on a JSON value.  An array joins the strings of its
    items with commas, [null] and [undefined] items giving the empty
    string.  A plain object gives ["[object Object]"] through
    [Object.prototype.toString], unless an own [toString] property
    shadows it: a JSON value is never callable, and
    [Object.prototype.valueOf] returns the object itself, so the
    conversion to a primitive then throws. *)
Fixpoint toStringJS (v : value) : Result jsstring :=
  match v with
  | VUndefined => Ok (str "undefined")
  | VNull => Ok (str "null")
  | VBool true => Ok (str "true")
  | VBool false => Ok (str "false")
  | VNumber n => Ok (numberToString n)
  | VString s => Ok s
  | VArray items =>
      (fix join (l : list value) : Result jsstring :=
         match l with
         | [] => Ok []
         | x :: rest =>
             let item := match x with
                         | VUndefined | VNull => Ok []
                         | _ => toStringJS x
                         end in
             match item with
             | Err e => Err e
             | Ok sx =>
                 match rest with
                 | [] => Ok sx
                 | _ => match join rest with
                        | Ok sr => Ok (sx ++ comma :: sr)
                        | Err e => Err e
                        end
                 end
             end
         end) items
  | VObject props =>
      match lookupProp (str "toString") props with
      | Some _ => Err (typeError "Cannot convert object to primitive value")
      | None => Ok (str "[object Object]")
      end
  end.

(** The chain of string methods of [slugify], applied to
    [String(input || '')]. *)
Definition slugOfString (s : jsstring) : jsstring :=
  match stripEdgeHyphens (replaceRuns false (toLowerCase (trim s))) with
  | [] => str "player"
  | t => t
  end.

(** [slugify(input)] *)
Definition slugify (input : value) : Result jsstring :=
  match toStringJS (jsOr input (VString [])) with
  | Ok s => Ok (slugOfString s)
  | Err e => Err e
  end.

(** [`${GITHUB_DIR}/${slug}.json`] *)
Definition storagePath (slug : jsstring) : jsstring :=
  GITHUB_DIR cfg ++ str "/" ++ slug ++ str ".json".

(** *** Content-store client *)

Definition backendFailure (verb : string) (resp : Response) : Exn :=
  MkExn (str "Error")
        (str "GitHub " ++ str verb ++ str " failed: " ++ decimal (status resp)
           ++ str " " ++ text resp).

(** [githubGetContent(path)]: [null] for 404. *)
Definition githubGetContent (path : jsstring) : Prog value :=
  let* resp := fetch (ReqGet path (GITHUB_BRANCH cfg)) in
  if status resp =? 404 then Ret VNull
  else if negb (ok resp) then Throw (backendFailure "GET" resp)
  else lift (respJson resp).

(** [Buffer.from(JSON.stringify(contentJson, null, 2)).toString('base64')];
    [JSON.stringify(undefined)] is [undefined], which [Buffer.from]
    refuses. *)
Definition encodeContent (contentJson : value) : Result jsstring :=
  match contentJson with
  | VUndefined => Err (typeError "The first argument must be of type string")
  | _ => Ok (toBase64 (JSON_stringify contentJson))
  end.

(** The [body] object of lines 73 to 78, [sha] being the variable of
    line 68. *)
Definition upsertBody (path : jsstring) (content : jsstring)
    (message : jsstring) (sha : value) : PutBody :=
  {| body_message := match message with
                     | [] => str "Update " ++ path
                     | _ => message
                     end;
     body_content := content;
     body_branch := GITHUB_BRANCH cfg;
     body_sha := if truthy sha then Some sha else None |}.

(** [githubUpsertFile(path, contentJson, message)] *)
Definition githubUpsertFile (path : jsstring) (contentJson : value)
    (message : jsstring) : Prog value :=
  let* existing := githubGetContent path in
  let sha := if truthy existing && truthy (getProp existing "sha")
             then getProp existing "sha" else VNull in
  let* content := lift (encodeContent contentJson) in
  let* resp := fetch (ReqPut path (upsertBody path content message sha)) in
  if negb (ok resp) then Throw (backendFailure "PUT" resp)
  else lift (respJson resp).

(** *** Routes *)

Definition healthReply : Reply := ReplyJson 200 (VObject [(str "ok", VBool true)]).
Definition unauthorized : Reply := ReplyJson 401 (errorBody (str "Unauthorized")).
Definition missingFields : Reply := ReplyJson 400 (errorBody (str "Missing profile or checks")).
Definition notFound : Reply := ReplyJson 404 (errorBody (str "Not found")).

(** The [catch] block of both handlers. *)
Definition internalError (err : Exn) : Prog Reply :=
  Ret (ReplyJson 500 (errorBody (errorText err))).

(** The record written by [save]. *)
Definition envelope (profile checks : value) (now : jsstring) : value :=
  VObject [(str "profile", profile); (str "checks", checks);
           (str "savedAt", VString now); (str "version", VNumber 1%float)].

(** [result.commit?.sha || null] *)
Definition commitOf (result : value) : Result value :=
  match member result "commit" with
  | Err e => Err e
  | Ok commit =>
      let sha := match commit with
                 | VUndefined | VNull => VUndefined
                 | _ => getProp commit "sha"
                 end in
      Ok (jsOr sha VNull)
  end.

Definition saved (path : jsstring) (commit : value) : Reply :=
  ReplyJson 200 (VObject [(str "ok", VBool true); (str "path", VString path);
                          (str "commit", commit)]).

(** [app.post('/save', ...)]; [now] is [new Date().toISOString()] and
    [body] is [req.body]. *)
Definition saveHandler (now : jsstring) (body : value) : Prog Reply :=
  tryCatch
    (let fields := jsOr body (VObject []) in
     let profile := getProp fields "profile" in
     let checks := getProp fields "checks" in
     if negb (truthy profile) || negb (truthy checks) then Ret missingFields
     else
       let* slug := lift (slugify (getProp profile "discord")) in
       let path := storagePath slug in
       let payload := envelope profile checks now in
       let* who := lift (toStringJS (jsOr (getProp profile "discord") (VString slug))) in
       let* result := githubUpsertFile path payload (str "Onboarding save for " ++ who) in
       let* commit := lift (commitOf result) in
       Ret (saved path commit))
    internalError.

(** [Buffer.from(data.content, 'base64').toString('utf8')] *)
Definition decodeContent (content : value) : Result jsstring :=
  match content with
  | VString s => Ok (fromBase64 s)
  | _ => bufferFromOther content
  end.

(** [app.get('/load/:slug', ...)]; [slugParam] is [req.params.slug]. *)
Definition loadHandler (slugParam : jsstring) : Prog Reply :=
  tryCatch
    (let* slug := lift (slugify (VString slugParam)) in
     let path := storagePath slug in
     let* data := githubGetContent path in
     if negb (truthy data) then Ret notFound
     else
       let* content := lift (decodeContent (getProp data "content")) in
       Ret (ReplySend 200 (str "application/json") content))
    internalError.

Definition route (now : jsstring) (ep : Endpoint) : Prog Reply :=
  match ep with
  | GetHealth => Ret healthReply
  | PostSave body => saveHandler now body
  | GetLoad slug => loadHandler slug
  end.

(** The shared-secret middleware in front of the routes:
    [req.header('x-api-key')] is a string or [undefined]. *)
Definition app (now : jsstring) (req : HttpRequest) : Prog Reply :=
  match API_KEY cfg with
  | [] => route now (endpoint req)
  | _ =>
      if bool_decide (apiKeyHeader req = Some (API_KEY cfg))
      then route now (endpoint req)
      else Ret unauthorized
  end.

End Gateway.

(** ** The content store as a key-value map

    The backend boundary of the specification: objects are addressed by
    branch and path and hold base64 content.  A read answers 404 for an
    absent object and otherwise gives the content with its version
    token.  A write stores the content; it is refused when it overwrites
    without the current token, or creates with one. *)

Section ContentStore.

(** The version token of a content (git's blob hash). *)
Variable blobSha : jsstring -> jsstring.

(** The identifier of the commit that produced a state of the store. *)
Variable commitId : gmap (jsstring * jsstring) jsstring -> jsstring.

(** How the store writes a document on the wire. *)
Variable wire : value -> jsstring.

Definition answer (code : N) (doc : value) : Result Response :=
  Ok (MkResponse code (wire doc) (Some doc)).

Definition refusal (msg : string) : value :=
  VObject [(str "message", VString (str msg))].

Definition tokenMatches (sha : value) (content : jsstring) : bool :=
  match sha with
  | VString t => bool_decide (t = blobSha content)
  | _ => false
  end.

Definition storeFetch (rq : Request) (store : gmap (jsstring * jsstring) jsstring)
    : Result Response * gmap (jsstring * jsstring) jsstring :=
  match rq with
  | ReqGet path ref =>
      match store !! (ref, path) with
      | None => (answer 404 (refusal "Not Found"), store)
      | Some content =>
          (answer 200 (VObject [(str "path", VString path);
                                (str "sha", VString (blobSha content));
                                (str "content", VString content);
                                (str "encoding", VString (str "base64"))]),
           store)
      end
  | ReqPut path body =>
      let key := (body_branch body, path) in
      let written := <[key := body_content body]> store in
      let done (code : N) :=
        (answer code
           (VObject [(str "content",
                      VObject [(str "path", VString path);
                               (str "sha", VString (blobSha (body_content body)))]);
                     (str "commit",
                      VObject [(str "sha", VString (commitId written))])]),
         written) in
      match store !! key, body_sha body with
      | None, None => done 201
      | Some content, Some sha =>
          if tokenMatches sha content then done 200
          else (answer 409 (refusal "sha does not match"), store)
      | Some _, None => (answer 422 (refusal "sha was not supplied"), store)
      | None, Some _ => (answer 422 (refusal "sha supplied for a new file"), store)
      end
  end.

End ContentStore.

(** ** Stand-ins for the platform, to run the model on examples *)

Module Sample.

Definition lower (s : jsstring) : jsstring := map asciiLower s.
Definition numberText (n : float) : jsstring :=
  if (n =? 1)%float then str "1" else str "0".

(** Compact JSON, strings written without escapes. *)
Definition quoted (s : jsstring) : jsstring := 34 :: s ++ [34].

Fixpoint stringify (v : value) : jsstring :=
  match v with
  | VUndefined | VNull => str "null"
  | VBool true => str "true"
  | VBool false => str "false"
  | VNumber n => numberText n
  | VString s => quoted s
  | VArray items =>
      str "["
      ++ (fix each (l : list value) : jsstring :=
            match l with
            | [] => []
            | [x] => stringify x
            | x :: rest => stringify x ++ comma :: each rest
            end) items
      ++ str "]"
  | VObject props =>
      str "{"
      ++ (fix each (l : list (jsstring * value)) : jsstring :=
            match l with
            | [] => []
            | [(k, x)] => quoted k ++ str ":" ++ stringify x
            | (k, x) :: rest => quoted k ++ str ":" ++ stringify x ++ comma :: each rest
            end) props
      ++ str "}"
  end.
Definition encode (s : jsstring) : jsstring := s.
Definition decode (s : jsstring) : jsstring := s.
Definition fromOther (v : value) : Result jsstring :=
  Err (typeError "The first argument must be of type string").
Definition sha (content : jsstring) : jsstring := str "sha:" ++ content.
Definition commit (store : gmap (jsstring * jsstring) jsstring) : jsstring := str "c1".
Definition onWire (v : value) : jsstring := [].

Definition secretConfig : Config :=
  MkConfig (str "s3cret") (str "main") (str "saves").

Definition now : jsstring := str "2024-01-01T00:00:00.000Z".

Definition annBee : value :=
  VObject [(str "profile", VObject [(str "discord", VString (str "Ann Bee"))]);
           (str "checks", VObject [(str "done", VBool true)])].

(** A store that answers a write without naming the commit. *)
Definition terse : list (Result Response) :=
  [Ok (MkResponse 404 [] None); Ok (MkResponse 201 (str "{}") (Some (VObject [])))].

End Sample.

(** A document with which the store answers a write omits the commit
    identifier when its [commit] is missing or [null], or the [sha] of
    its [commit] is missing or falsy.  The document is any JSON value
    but [null], of which no property can be read. *)
Definition omitsCommitId (result : value) : Prop :=
  result <> VNull /\ result <> VUndefined
  /\ truthy (getProp (getProp result "commit") "sha") = false.

(** ** A store that another client writes to

    The key-value store with a second writer: right after a read is
    answered, the other client puts [other] at the path that was read.
    It is the interleaving that the read-then-write of an upsert leaves
    room for. *)

Section ContendedStore.

Variable blobSha : jsstring -> jsstring.
Variable commitId : gmap (jsstring * jsstring) jsstring -> jsstring.
Variable wire : value -> jsstring.

Definition contended (other : jsstring) (rq : Request)
    (store : gmap (jsstring * jsstring) jsstring)
    : Result Response * gmap (jsstring * jsstring) jsstring :=
  let '(answered, after) := storeFetch blobSha commitId wire rq store in
  match rq with
  | ReqGet path ref => (answered, <[(ref, path) := other]> after)
  | ReqPut _ _ => (answered, after)
  end.

End ContendedStore.

(** ** Start-up

    Lines 20 to 33: the configuration is read from [process.env], whose
    values are strings; a default stands in for a variable that is not
    set (not for one that is set to the empty string), and the process
    exits when the token, the owner or the repository is missing. *)

Record Boot : Type := MkBoot {
  PORT : value;
  GITHUB_TOKEN : jsstring;
  GITHUB_OWNER : jsstring;
  GITHUB_REPO : jsstring;
  settings : Config
}.

(** [!v] for a variable of the environment: not set, or empty. *)
Definition unset (v : option jsstring) : bool :=
  match v with
  | Some (_ :: _) => false
  | _ => true
  end.

(** [None] is [process.exit(1)]. *)
Definition startup (env : gmap jsstring jsstring) : option Boot :=
  let token := env !! str "GITHUB_TOKEN" in
  let owner := env !! str "GITHUB_OWNER" in
  let repo := env !! str "GITHUB_REPO" in
  if unset token || unset owner || unset repo then None
  else
    Some {| PORT := match env !! str "PORT" with
                    | Some port => VString port
                    | None => VNumber 8787%float
                    end;
            GITHUB_TOKEN := default [] token;
            GITHUB_OWNER := default [] owner;
            GITHUB_REPO := default [] repo;
            settings :=
              {| API_KEY := default [] (env !! str "API_KEY");
                 GITHUB_BRANCH := default (str "main") (env !! str "GITHUB_BRANCH");
                 GITHUB_DIR := default (str "saves") (env !! str "GITHUB_DIR") |} |}.

(** ** The server in front of the shared-secret check

    Lines 36 and 37 register [cors()] and [express.json()] before the
    check of lines 40 to 45, and Express answers what no route takes.
    The two libraries are not part of the repository; they are taken as
    documented.  [cors()] answers an [OPTIONS] request itself, with 204
    and no body, and passes every other request on.  [express.json()]
    parses the body: it answers 400 when the body is not JSON, and
    otherwise hands the document (or nothing) to what follows.  A
    request that matches no route is answered 404 by Express, after the
    check. *)

Inductive Method : Type :=
| MGet
| MPost
| MOptions.

Inductive Target : Type :=
| OnHealth
| OnSave
| OnLoad (slug : jsstring)
| Elsewhere.

(** What [express.json()] makes of the body of a request. *)
Inductive Payload : Type :=
| Parsed (body : value)
| Unparseable.

Record Incoming : Type := MkIncoming {
  method : Method;
  target : Target;
  xApiKey : option jsstring;
  payload : Payload
}.

(** What the server answers: the 204 of a preflight, the 400 of the
    body parser, the reply of the check or of a route, or the 404 of a
    path that has no route. *)
Inductive Served : Type :=
| Preflight
| BadBody
| Handled (reply : Reply)
| NoRoute.

(** Lines 93, 95 and 110. *)
Definition routing (m : Method) (t : Target) (body : value) : option Endpoint :=
  match m, t with
  | MGet, OnHealth => Some GetHealth
  | MPost, OnSave => Some (PostSave body)
  | MGet, OnLoad slug => Some (GetLoad slug)
  | _, _ => None
  end.

Section Server.

Variable unicodeLower : jsstring -> jsstring.
Variable numberToString : float -> jsstring.
Variable JSON_stringify : value -> jsstring.
Variable toBase64 : jsstring -> jsstring.
Variable fromBase64 : jsstring -> jsstring.
Variable bufferFromOther : value -> Result jsstring.
Variable cfg : Config.

(** The middleware and the routes, in the order of their registration. *)
Definition server (now : jsstring) (inc : Incoming) : Prog Served :=
  match method inc with
  | MOptions => Ret Preflight
  | _ =>
      match payload inc with
      | Unparseable => Ret BadBody
      | Parsed body =>
          match routing (method inc) (target inc) body with
          | Some ep =>
              let* reply := app unicodeLower numberToString JSON_stringify toBase64
                              fromBase64 bufferFromOther cfg now
                              (MkHttpRequest (xApiKey inc) ep) in
              Ret (Handled reply)
          | None =>
              match API_KEY cfg with
              | [] => Ret NoRoute
              | _ =>
                  if bool_decide (xApiKey inc = Some (API_KEY cfg))
                  then Ret NoRoute
                  else Ret (Handled unauthorized)
              end
          end
      end
  end.

End Server.

(** * Properties *)

(** ** Code units *)

Ltac order_bools :=
  repeat match goal with
         | |- context [?a <=? ?b] =>
             first [ rewrite (proj2 (N.leb_le a b)) by lia
                   | rewrite (proj2 (N.leb_gt a b)) by lia ]
         | |- context [?a <? ?b] =>
             first [ rewrite (proj2 (N.ltb_lt a b)) by lia
                   | rewrite (proj2 (N.ltb_ge a b)) by lia ]
         | |- context [?a =? ?b] =>
             first [ rewrite (proj2 (N.eqb_eq a b)) by lia
                   | rewrite (proj2 (N.eqb_neq a b)) by lia ]
         end.

Lemma isAlnum_range (c : N) :
  isAlnum c = true -> (97 <= c <= 122) \/ (48 <= c <= 57).
Proof.
  unfold isAlnum. rewrite orb_true_iff, !andb_true_iff, !N.leb_le. tauto.
Qed.

Lemma keyUnit_range (c : N) :
  keyUnit c -> (97 <= c <= 122) \/ (48 <= c <= 57) \/ c = 45.
Proof.
  intros [H | H]; [apply isAlnum_range in H; tauto | unfold hyphen in H; tauto].
Qed.

Lemma keyUnit_not_space (c : N) : keyUnit c -> isWhiteSpace c = false.
Proof.
  intros H. apply keyUnit_range in H. unfold isWhiteSpace.
  destruct H as [H | [H | H]]; order_bools; reflexivity.
Qed.

Lemma keyUnit_ascii (c : N) : keyUnit c -> isAscii c = true.
Proof.
  intros H. apply keyUnit_range in H. unfold isAscii.
  destruct H as [H | [H | H]]; order_bools; reflexivity.
Qed.

Lemma keyUnit_lower (c : N) : keyUnit c -> asciiLower c = c.
Proof.
  intros H. apply keyUnit_range in H. unfold asciiLower.
  destruct H as [H | [H | H]]; order_bools; reflexivity.
Qed.

Lemma isAlnum_not_hyphen (c : N) : isAlnum c = true -> (c =? hyphen) = false.
Proof.
  intros H. apply isAlnum_range in H. unfold hyphen.
  destruct H; order_bools; reflexivity.
Qed.

(** ** The automaton and the pattern *)

Lemma hyphenated_units (strict opened : bool) (s : jsstring) :
  hyphenated strict opened s = true -> Forall keyUnit s.
Proof.
  revert opened. induction s as [| c t IH]; intros opened H; [constructor |].
  simpl in H. destruct (isAlnum c) eqn:Ec.
  - constructor; [left; exact Ec | eauto].
  - destruct (N.eqb_spec c hyphen) as [-> | _]; [| discriminate].
    destruct opened; [| discriminate]. simpl in H.
    constructor; [right; reflexivity | eauto].
Qed.

Lemma Matches_star_class_cons (p : N -> bool) (c : N) (s : jsstring) :
  p c = true -> Matches (Star (Class p)) s -> Matches (Star (Class p)) (c :: s).
Proof.
  intros Hc Hs. change (c :: s) with ([c] ++ s).
  apply MStarApp; [apply MClass; exact Hc | exact Hs].
Qed.

Lemma hyphenated_sound (opened : bool) (s : jsstring) :
  hyphenated true opened s = true -> Matches (toRead opened) s.
Proof.
  revert opened. induction s as [| c t IH]; intros opened H; simpl in H.
  - destruct opened; [| discriminate].
    change (@nil N) with (@nil N ++ []). apply MCat; apply MStarNil.
  - destruct (isAlnum c) eqn:Ec.
    + apply IH in H. simpl in H. inversion H as [| | r1 r2 s1 s2 H1 H2 | |]; subst.
      assert (Hg : Matches (Plus (Class isAlnum)) (c :: s1)).
      { change (c :: s1) with ([c] ++ s1). apply MCat; [apply MClass; exact Ec | exact H1]. }
      destruct opened; simpl.
      * change (c :: s1 ++ s2) with ((c :: s1) ++ s2).
        apply MCat; [apply Matches_star_class_cons; assumption | exact H2].
      * change (c :: s1 ++ s2) with ((c :: s1) ++ s2).
        apply MCat; assumption.
    + destruct (N.eqb_spec c hyphen) as [-> | _]; [| discriminate].
      destruct opened; [| discriminate]. simpl in H.
      apply IH in H. simpl in H. inversion H as [| | r1 r2 s1 s2 H1 H2 | |]; subst.
      simpl. change (hyphen :: s1 ++ s2) with ([] ++ ((hyphen :: s1) ++ s2)).
      apply MCat; [apply MStarNil |].
      apply MStarApp; [| exact H2].
      change (hyphen :: s1) with ([hyphen] ++ s1).
      apply MCat; [apply MLit | exact H1].
Qed.

Lemma isSlug_matches (s : jsstring) : isSlug s = true -> Matches slugPattern s.
Proof. apply (hyphenated_sound false). Qed.

Lemma isSlug_nonempty (s : jsstring) : isSlug s = true -> s <> [].
Proof. intros H ->. discriminate. Qed.

(** The automaton accepts all that the pattern matches. *)

Lemma Matches_star_class (p : N -> bool) (s : jsstring) :
  Matches (Star (Class p)) s -> forallb p s = true.
Proof.
  intros H. remember (Star (Class p)) as r eqn:Er.
  induction H as [| | | r0 | r0 s1 s2 H1 _ H2 IH2]; inversion Er; subst.
  - reflexivity.
  - inversion H1; subst. simpl. rewrite IH2 by reflexivity.
    match goal with Hc : p _ = true |- _ => rewrite Hc end. reflexivity.
Qed.

Lemma Matches_plus_class (p : N -> bool) (s : jsstring) :
  Matches (Plus (Class p)) s -> s <> [] /\ forallb p s = true.
Proof.
  intros H. inversion H as [| | r1 r2 s1 s2 H1 H2 | |]; subst.
  inversion H1; subst. apply Matches_star_class in H2.
  split; [discriminate |]. simpl.
  match goal with Hc : p _ = true |- _ => rewrite Hc end. exact H2.
Qed.

Lemma hyphenated_group (strict opened : bool) (g rest : jsstring) :
  g <> [] -> forallb isAlnum g = true ->
  hyphenated strict opened (g ++ rest) = hyphenated strict true rest.
Proof.
  revert opened. induction g as [| c t IH]; intros opened Hne Hg; [congruence |].
  simpl in *. apply andb_true_iff in Hg as [-> Ht].
  destruct t as [| d t]; [reflexivity |].
  apply IH; [discriminate | exact Ht].
Qed.

Lemma hyphenated_groupsTail (s : jsstring) :
  Matches groupsTail s -> hyphenated true true s = true.
Proof.
  intros H. unfold groupsTail in H.
  remember (Star (Cat (Lit hyphen) (Plus (Class isAlnum)))) as r eqn:Er.
  induction H as [| | | r0 | r0 s1 s2 H1 _ H2 IH2]; inversion Er; subst.
  - reflexivity.
  - inversion H1 as [| | r1 r2 h g Hh Hg | |]; subst.
    inversion Hh; subst. apply Matches_plus_class in Hg as [Hne Hg].
    simpl. rewrite (hyphenated_group true false g s2 Hne Hg).
    apply IH2. reflexivity.
Qed.

Lemma matches_isSlug (s : jsstring) : Matches slugPattern s -> isSlug s = true.
Proof.
  intros H. inversion H as [| | r1 r2 g rest Hg Hrest | |]; subst.
  apply Matches_plus_class in Hg as [Hne Hg]. unfold isSlug.
  rewrite (hyphenated_group true false g rest Hne Hg).
  apply hyphenated_groupsTail, Hrest.
Qed.

(** ** The two replacements *)

Lemma replaceRuns_hyphenated (inRun : bool) (s : jsstring) :
  hyphenated false (negb inRun) (replaceRuns inRun s) = true.
Proof.
  revert inRun. induction s as [| c t IH]; intros inRun; simpl.
  - apply orb_true_r.
  - destruct (isAlnum c) eqn:Ec.
    + simpl. rewrite Ec. apply (IH false).
    + destruct inRun; [apply (IH true) |].
      simpl. apply (IH true).
Qed.

Lemma dropLeadingHyphen_hyphenated (s : jsstring) :
  hyphenated false true s = true ->
  hyphenated false false (dropLeadingHyphen s) = true.
Proof.
  destruct s as [| c t]; [reflexivity |]. simpl.
  destruct (isAlnum c) eqn:Ec.
  - rewrite (isAlnum_not_hyphen c Ec). simpl. rewrite Ec. trivial.
  - destruct (N.eqb_spec c hyphen); [trivial | discriminate].
Qed.

Lemma dropTrailingHyphen_nil (c : N) (t : jsstring) :
  dropTrailingHyphen (c :: t) = [] -> c = hyphen /\ t = [].
Proof.
  destruct t as [| d t]; simpl.
  - destruct (N.eqb_spec c hyphen); [auto | discriminate].
  - discriminate.
Qed.

Lemma dropTrailingHyphen_cons (c d : N) (t : jsstring) :
  dropTrailingHyphen (c :: d :: t) = c :: dropTrailingHyphen (d :: t).
Proof. reflexivity. Qed.

Lemma dropTrailingHyphen_hyphenated (opened : bool) (s : jsstring) :
  hyphenated false opened s = true ->
  dropTrailingHyphen s = [] \/ hyphenated true opened (dropTrailingHyphen s) = true.
Proof.
  revert opened. induction s as [| c t IH]; intros opened H; [left; reflexivity |].
  destruct t as [| d t].
  - simpl in *. destruct (isAlnum c) eqn:Ec.
    + rewrite (isAlnum_not_hyphen c Ec). right. simpl. rewrite Ec. reflexivity.
    + destruct (N.eqb_spec c hyphen); [left; reflexivity | discriminate].
  - right. rewrite dropTrailingHyphen_cons.
    remember (d :: t) as u eqn:Eu. simpl in H |- *.
    destruct (isAlnum c) eqn:Ec.
    + destruct (IH _ H) as [E | E]; [rewrite E; reflexivity | exact E].
    + destruct (N.eqb_spec c hyphen) as [-> | _]; [| discriminate].
      destruct opened; [| discriminate]. simpl in H |- *.
      destruct (IH _ H) as [E | E]; [| exact E].
      subst u. apply dropTrailingHyphen_nil in E as [-> _].
      simpl in H. discriminate.
Qed.

Lemma stripped_is_slug (s : jsstring) :
  let t := stripEdgeHyphens (replaceRuns false s) in
  t = [] \/ isSlug t = true.
Proof.
  unfold stripEdgeHyphens, isSlug.
  apply dropTrailingHyphen_hyphenated, dropLeadingHyphen_hyphenated.
  apply (replaceRuns_hyphenated false).
Qed.

(** On a storage key every step of the chain is the identity. *)

Lemma dropWhile_none (p : N -> bool) (s : jsstring) :
  (forall c, In c s -> p c = false) -> dropWhile p s = s.
Proof.
  destruct s as [| c t]; [reflexivity |]. intros H. simpl.
  rewrite (H c) by (left; reflexivity). reflexivity.
Qed.

Lemma trim_key (s : jsstring) : Forall keyUnit s -> trim s = s.
Proof.
  intros H. unfold trim. rewrite Forall_forall in H.
  rewrite (dropWhile_none _ s).
  - rewrite dropWhile_none; [apply rev_involutive |].
    intros c Hc. apply keyUnit_not_space, H, list_elem_of_In, in_rev, Hc.
  - intros c Hc. apply keyUnit_not_space, H, list_elem_of_In, Hc.
Qed.

Lemma replaceRuns_key (opened : bool) (s : jsstring) :
  hyphenated false opened s = true -> replaceRuns (negb opened) s = s.
Proof.
  revert opened. induction s as [| c t IH]; intros opened H; [reflexivity |].
  simpl in *. destruct (isAlnum c) eqn:Ec.
  - f_equal. apply (IH true H).
  - destruct (N.eqb_spec c hyphen) as [-> | _]; [| discriminate].
    destruct opened; [| discriminate]. simpl in *.
    f_equal. apply (IH false H).
Qed.

Lemma hyphenated_relax (opened : bool) (s : jsstring) :
  hyphenated true opened s = true -> hyphenated false opened s = true.
Proof.
  revert opened. induction s as [| c t IH]; intros opened H; simpl in *.
  - apply orb_true_iff. destruct opened; auto.
  - destruct (isAlnum c); [auto |].
    destruct ((c =? hyphen) && opened); [auto | discriminate].
Qed.

Lemma hyphenated_open (strict : bool) (s : jsstring) :
  hyphenated strict false s = true -> hyphenated strict true s = true.
Proof.
  destruct s as [| c t]; simpl.
  - intros _. reflexivity.
  - destruct (isAlnum c); [trivial |]. rewrite andb_false_r. discriminate.
Qed.

Lemma dropLeadingHyphen_key (s : jsstring) :
  isSlug s = true -> dropLeadingHyphen s = s.
Proof.
  destruct s as [| c t]; [reflexivity |]. unfold isSlug. simpl.
  destruct (isAlnum c) eqn:Ec.
  - rewrite (isAlnum_not_hyphen c Ec). reflexivity.
  - rewrite andb_false_r. discriminate.
Qed.

Lemma dropTrailingHyphen_key (opened : bool) (s : jsstring) :
  hyphenated true opened s = true -> dropTrailingHyphen s = s.
Proof.
  revert opened. induction s as [| c t IH]; intros opened H; [reflexivity |].
  destruct t as [| d t].
  - simpl in *. destruct (isAlnum c) eqn:Ec.
    + rewrite (isAlnum_not_hyphen c Ec). reflexivity.
    + destruct ((c =? hyphen) && opened); discriminate.
  - rewrite dropTrailingHyphen_cons. f_equal.
    remember (d :: t) as u. simpl in H.
    destruct (isAlnum c); [eauto |].
    destruct ((c =? hyphen) && opened); [eauto | discriminate].
Qed.

(** ** Key normaliser *)

Section KeyNormaliser.

Variable unicodeLower : jsstring -> jsstring.
Variable numberToString : float -> jsstring.

Lemma toLowerCase_key (s : jsstring) :
  Forall keyUnit s -> toLowerCase unicodeLower s = s.
Proof.
  intros H. unfold toLowerCase.
  assert (Ha : forallb isAscii s = true).
  { apply forallb_forall. intros c Hc. rewrite Forall_forall in H.
    apply keyUnit_ascii, H, list_elem_of_In, Hc. }
  rewrite Ha. induction H as [| c t Hc Ht IH]; [reflexivity |].
  simpl in *. apply andb_true_iff in Ha as [_ Ha].
  rewrite (keyUnit_lower c Hc), (IH Ha). reflexivity.
Qed.

Lemma slugOfString_isSlug (s : jsstring) :
  isSlug (slugOfString unicodeLower s) = true.
Proof.
  unfold slugOfString.
  destruct (stripped_is_slug (toLowerCase unicodeLower (trim s))) as [E | E];
    simpl in E.
  - rewrite E. reflexivity.
  - destruct (stripEdgeHyphens _); [discriminate | exact E].
Qed.

Lemma slugOfString_key (s : jsstring) :
  isSlug s = true -> slugOfString unicodeLower s = s.
Proof.
  intros H. pose proof (hyphenated_units _ _ _ H) as Hu.
  unfold slugOfString, stripEdgeHyphens.
  rewrite (trim_key s Hu), (toLowerCase_key s Hu).
  pose proof (replaceRuns_key true s
                (hyphenated_open _ _ (hyphenated_relax _ _ H))) as Hr.
  simpl in Hr. rewrite Hr.
  rewrite (dropLeadingHyphen_key s H), (dropTrailingHyphen_key false s H).
  destruct s; [discriminate | reflexivity].
Qed.

Lemma slugify_string (s : jsstring) :
  slugify unicodeLower numberToString (VString s)
  = Ok (slugOfString unicodeLower s).
Proof. destruct s; reflexivity. Qed.

(** Whatever the input, a key that [slugify] returns is a fixed point
    of the chain. *)
Lemma slugify_isSlug (input : value) (key : jsstring) :
  slugify unicodeLower numberToString input = Ok key -> isSlug key = true.
Proof.
  unfold slugify. destruct (toStringJS _ _); [| discriminate].
  intros [= <-]. apply slugOfString_isSlug.
Qed.

(** An already normalised key is returned unchanged. *)
Lemma slugify_fixes_keys (key : jsstring) :
  Matches slugPattern key ->
  slugify unicodeLower numberToString (VString key) = Ok key.
Proof.
  intros H. rewrite slugify_string. f_equal.
  apply slugOfString_key, matches_isSlug, H.
Qed.

(** C7.  For every input string, [slugify] returns a key that matches
    [^[a-z0-9]+(-[a-z0-9]+)*$] or is the fallback ["player"] (which
    itself matches the pattern). *)
Theorem slugify_matches_pattern (s : jsstring) :
  exists key,
    slugify unicodeLower numberToString (VString s) = Ok key
    /\ (Matches slugPattern key \/ key = str "player").
Proof.
  exists (slugOfString unicodeLower s). split; [apply slugify_string |].
  left. apply isSlug_matches, slugOfString_isSlug.
Qed.

(** C8.  Key normalisation is idempotent: for every input string [s],
    [slugify(slugify(s))] is [slugify(s)]. *)
Theorem slugify_idempotent (s : jsstring) :
  exists key,
    slugify unicodeLower numberToString (VString s) = Ok key
    /\ slugify unicodeLower numberToString (VString key) = Ok key.
Proof.
  exists (slugOfString unicodeLower s). split; [apply slugify_string |].
  rewrite slugify_string. f_equal.
  apply slugOfString_key, slugOfString_isSlug.
Qed.

Example slugify_ann_bee :
  slugify Sample.lower Sample.numberText (VString (str "Ann Bee")) = Ok (str "ann-bee").
Proof. reflexivity. Qed.

Example slugify_edges :
  slugify Sample.lower Sample.numberText (VString (str "  --Hello,  World!--  "))
  = Ok (str "hello-world").
Proof. reflexivity. Qed.

Example slugify_inner_hyphens :
  slugify Sample.lower Sample.numberText (VString (str "---")) = Ok (str "player").
Proof. reflexivity. Qed.

Example slugify_missing :
  slugify Sample.lower Sample.numberText VUndefined = Ok (str "player").
Proof. reflexivity. Qed.

Example slugify_zero :
  slugify Sample.lower Sample.numberText (VNumber 0%float) = Ok (str "player").
Proof. reflexivity. Qed.

Example slugify_object :
  slugify Sample.lower Sample.numberText (VObject []) = Ok (str "object-object").
Proof. reflexivity. Qed.

Example slugify_array :
  slugify Sample.lower Sample.numberText
    (VArray [VString (str "A"); VNull; VString (str "b c")]) = Ok (str "a-b-c").
Proof. reflexivity. Qed.

(** An object that shadows [toString] cannot become a string. *)
Example slugify_throws :
  slugify Sample.lower Sample.numberText
    (VObject [(str "toString", VNumber 1%float)])
  = Err (typeError "Cannot convert object to primitive value").
Proof. reflexivity. Qed.

End KeyNormaliser.

(** ** Runs *)

Section Runs.

Context {W : Type} (transport : Request -> W -> Result Response * W).

Lemma run_eta {A : Type} (r : Run W A) :
  MkRun (outcome r) (world r) (calls r) = r.
Proof. destruct r; reflexivity. Qed.

Lemma exec_bind {A B : Type} (p : Prog A) (f : A -> Prog B) (w : W) :
  exec transport (bind p f) w
  = thenRun (exec transport p w) (fun a w1 => exec transport (f a) w1).
Proof.
  revert w. induction p as [a | e | rq k IH]; intros w; simpl.
  - unfold thenRun, prefixRun; simpl. symmetry. apply run_eta.
  - reflexivity.
  - destruct (transport rq w) as [r w1]. rewrite IH. unfold thenRun, prefixRun; simpl.
    destruct (outcome (exec transport (k r) w1)); reflexivity.
Qed.

Lemma exec_tryCatch {A : Type} (p : Prog A) (h : Exn -> Prog A) (w : W) :
  exec transport (tryCatch p h) w
  = catchRun (exec transport p w) (fun e w1 => exec transport (h e) w1).
Proof.
  revert w. induction p as [a | e | rq k IH]; intros w; simpl.
  - reflexivity.
  - unfold catchRun, prefixRun; simpl. symmetry. apply run_eta.
  - destruct (transport rq w) as [r w1]. rewrite IH. unfold catchRun, prefixRun; simpl.
    destruct (exec transport (k r) w1) as [[a | e] w2 tr]; reflexivity.
Qed.

Lemma exec_lift {A : Type} (r : Result A) (w : W) :
  exec transport (lift r) w = MkRun r w [].
Proof. destruct r; reflexivity. Qed.

Lemma exec_fetch (rq : Request) (w : W) :
  exec transport (fetch rq) w
  = MkRun (fst (transport rq w)) (snd (transport rq w)) [rq].
Proof.
  unfold fetch. simpl. destruct (transport rq w) as [r w1].
  rewrite exec_lift. reflexivity.
Qed.

Lemma thenRun_ok {A B : Type} (a : A) (w : W) (made : list Request)
    (next : A -> W -> Run W B) :
  thenRun (MkRun (Ok a) w made) next = prefixRun made (next a w).
Proof. reflexivity. Qed.

Lemma thenRun_err {A B : Type} (e : Exn) (w : W) (made : list Request)
    (next : A -> W -> Run W B) :
  thenRun (MkRun (Err e) w made) next = MkRun (Err e) w made.
Proof. reflexivity. Qed.

Lemma catchRun_ok {A : Type} (a : A) (w : W) (made : list Request)
    (handler : Exn -> W -> Run W A) :
  catchRun (MkRun (Ok a) w made) handler = MkRun (Ok a) w made.
Proof. reflexivity. Qed.

Lemma catchRun_err {A : Type} (e : Exn) (w : W) (made : list Request)
    (handler : Exn -> W -> Run W A) :
  catchRun (MkRun (Err e) w made) handler = prefixRun made (handler e w).
Proof. reflexivity. Qed.

Lemma prefixRun_mk {A : Type} (made made' : list Request) (o : Result A) (w : W) :
  prefixRun made (MkRun o w made') = MkRun o w (made ++ made').
Proof. reflexivity. Qed.

Lemma prefixRun_nil {A : Type} (r : Run W A) : prefixRun [] r = r.
Proof. destruct r; reflexivity. Qed.

(** A program that returns at once calls nothing. *)
Lemma exec_Ret {A : Type} (a : A) (w : W) :
  exec transport (Ret a) w = MkRun (Ok a) w [].
Proof. reflexivity. Qed.

End Runs.

(** ** Request handlers *)

Section Handlers.

Variable unicodeLower : jsstring -> jsstring.
Variable numberToString : float -> jsstring.
Variable JSON_stringify : value -> jsstring.
Variable toBase64 : jsstring -> jsstring.
Variable fromBase64 : jsstring -> jsstring.
Variable bufferFromOther : value -> Result jsstring.
Variable cfg : Config.

Local Abbreviation slugify' := (slugify unicodeLower numberToString).
Local Abbreviation toStringJS' := (toStringJS numberToString).
Local Abbreviation githubUpsertFile' := (githubUpsertFile JSON_stringify toBase64 cfg).
Local Abbreviation saveHandler' :=
  (saveHandler unicodeLower numberToString JSON_stringify toBase64 cfg).
Local Abbreviation loadHandler' :=
  (loadHandler unicodeLower numberToString fromBase64 bufferFromOther cfg).
Local Abbreviation route' :=
  (route unicodeLower numberToString JSON_stringify toBase64 fromBase64
     bufferFromOther cfg).
Local Abbreviation app' :=
  (app unicodeLower numberToString JSON_stringify toBase64 fromBase64
     bufferFromOther cfg).

(** [const { profile, checks } = req.body || {}] reads the fields of the
    body itself. *)
Lemma getProp_body (body : value) (k : string) :
  getProp (jsOr body (VObject [])) k = getProp body k.
Proof.
  unfold jsOr. destruct (truthy body) eqn:E; [reflexivity |].
  destruct body; try reflexivity; discriminate.
Qed.

Lemma truthy_string (s : jsstring) : s <> [] -> truthy (VString s) = true.
Proof. destruct s; [congruence | reflexivity]. Qed.

Lemma saveHandler_rejects (now : jsstring) (body : value) :
  truthy (getProp body "profile") = false \/ truthy (getProp body "checks") = false ->
  saveHandler' now body = Ret missingFields.
Proof.
  intros H. unfold saveHandler. rewrite !getProp_body.
  destruct H as [-> | ->]; [| rewrite orb_true_r]; reflexivity.
Qed.

(** C3.  A save request whose body lacks [profile] or lacks [checks] is
    answered 400 by the handler, the backend not being called. *)
Theorem save_missing_field_rejected {W : Type}
    (transport : Request -> W -> Result Response * W)
    (now : jsstring) (body : value) (w : W) :
  getProp body "profile" = VUndefined \/ getProp body "checks" = VUndefined ->
  exec transport (saveHandler' now body) w = MkRun (Ok missingFields) w [].
Proof.
  intros H. rewrite saveHandler_rejects; [reflexivity |].
  destruct H as [-> | ->]; auto.
Qed.

(** C10.  A save request in which [profile] or [checks] is present but
    falsy ([false], [0], [""], [null]) is answered 400 by the handler,
    the backend not being called: the run is that of a request without
    the fields. *)
Theorem save_falsy_field_rejected {W : Type}
    (transport : Request -> W -> Result Response * W)
    (now : jsstring) (body : value) (w : W) :
  (getProp body "profile" <> VUndefined /\ truthy (getProp body "profile") = false)
  \/ (getProp body "checks" <> VUndefined /\ truthy (getProp body "checks") = false) ->
  exec transport (saveHandler' now body) w = MkRun (Ok missingFields) w []
  /\ exec transport (saveHandler' now body) w
     = exec transport (saveHandler' now (VObject [])) w.
Proof.
  intros H.
  assert (E : saveHandler' now body = Ret missingFields).
  { apply saveHandler_rejects. destruct H as [[_ H] | [_ H]]; auto. }
  rewrite E. split; reflexivity.
Qed.

Lemma app_admitted (now : jsstring) (req : HttpRequest) :
  API_KEY cfg = [] \/ apiKeyHeader req = Some (API_KEY cfg) ->
  app' now req = route' now (endpoint req).
Proof.
  intros H. unfold app. destruct (API_KEY cfg) as [| c key] eqn:E; [reflexivity |].
  destruct H as [H | H]; [discriminate |].
  rewrite bool_decide_eq_true_2 by exact H. reflexivity.
Qed.

(** The check of lines 40 to 45 on a request that reached it.  With a
    non-empty [API_KEY], a request on any route whose [x-api-key] header
    is absent or is not the secret is answered 401: the program is that
    bare reply, so no key is derived and the backend is not called.
    With an empty [API_KEY] the request goes to its route unchanged. *)
Theorem shared_secret_gate {W : Type}
    (transport : Request -> W -> Result Response * W)
    (now : jsstring) (req : HttpRequest) (w : W) :
  (API_KEY cfg <> [] -> apiKeyHeader req <> Some (API_KEY cfg) ->
     app' now req = Ret unauthorized
     /\ exec transport (app' now req) w = MkRun (Ok unauthorized) w [])
  /\ (API_KEY cfg = [] -> app' now req = route' now (endpoint req)).
Proof.
  split.
  - intros Hkey Hne.
    assert (E : app' now req = Ret unauthorized).
    { unfold app. destruct (API_KEY cfg) as [| c key]; [congruence |].
      rewrite bool_decide_eq_false_2 by exact Hne. reflexivity. }
    rewrite E. split; reflexivity.
  - intros E. apply app_admitted. left; exact E.
Qed.

(** C6, amended.  A request to the health endpoint that the
    shared-secret check admits (no secret configured, or [x-api-key]
    equal to it) is answered 200 with [{ok: true}], the backend not
    being called. *)
Theorem health_ok_when_admitted {W : Type}
    (transport : Request -> W -> Result Response * W)
    (now : jsstring) (req : HttpRequest) (w : W) :
  endpoint req = GetHealth ->
  API_KEY cfg = [] \/ apiKeyHeader req = Some (API_KEY cfg) ->
  exec transport (app' now req) w = MkRun (Ok healthReply) w [].
Proof.
  intros Hep Hadm. rewrite (app_admitted now req Hadm), Hep. reflexivity.
Qed.

(** Behind the middleware, an admitted save request without its fields
    gets the handler's 400. *)
Lemma app_save_rejected {W : Type}
    (transport : Request -> W -> Result Response * W)
    (now : jsstring) (header : option jsstring) (body : value) (w : W) :
  API_KEY cfg = [] \/ header = Some (API_KEY cfg) ->
  truthy (getProp body "profile") = false \/ truthy (getProp body "checks") = false ->
  exec transport (app' now (MkHttpRequest header (PostSave body))) w
  = MkRun (Ok missingFields) w [].
Proof.
  intros Hadm H. rewrite app_admitted by exact Hadm. cbn [endpoint route].
  rewrite saveHandler_rejects by exact H. reflexivity.
Qed.

(** The run of [githubGetContent], by what the backend answers. *)
Lemma exec_githubGetContent {W : Type}
    (transport : Request -> W -> Result Response * W) (path : jsstring) (w : W) :
  exec transport (githubGetContent cfg path) w
  = MkRun (match fst (transport (ReqGet path (GITHUB_BRANCH cfg)) w) with
           | Ok resp =>
               if status resp =? 404 then Ok VNull
               else if negb (ok resp) then Err (backendFailure "GET" resp)
               else respJson resp
           | Err e => Err e
           end)
          (snd (transport (ReqGet path (GITHUB_BRANCH cfg)) w))
          [ReqGet path (GITHUB_BRANCH cfg)].
Proof.
  unfold githubGetContent. rewrite exec_bind, exec_fetch.
  destruct (transport _ w) as [[resp | e] w1]; cbn [fst snd]; [| reflexivity].
  rewrite thenRun_ok.
  destruct (status resp =? 404); [reflexivity |].
  destruct (negb (ok resp)); [reflexivity |].
  rewrite exec_lift. reflexivity.
Qed.

(** Upsert against any backend: the read comes first; when it fails
    nothing is written, and otherwise one write follows, whose [sha] is
    the truthy [sha] of what the read found. *)
Lemma exec_upsert_read_failed {W : Type}
    (transport : Request -> W -> Result Response * W)
    (path : jsstring) (contentJson : value) (message : jsstring)
    (e : Exn) (w w1 : W) (made : list Request) :
  exec transport (githubGetContent cfg path) w = MkRun (Err e) w1 made ->
  exec transport (githubUpsertFile' path contentJson message) w
  = MkRun (Err e) w1 made.
Proof.
  intros Hget. unfold githubUpsertFile. rewrite exec_bind, Hget. reflexivity.
Qed.

Lemma exec_upsert_calls {W : Type}
    (transport : Request -> W -> Result Response * W)
    (path : jsstring) (contentJson : value) (message : jsstring)
    (existing : value) (w w1 : W) (made : list Request) :
  contentJson <> VUndefined ->
  exec transport (githubGetContent cfg path) w = MkRun (Ok existing) w1 made ->
  calls (exec transport (githubUpsertFile' path contentJson message) w)
  = made ++ [ReqPut path
               (upsertBody cfg path (toBase64 (JSON_stringify contentJson)) message
                  (if truthy existing && truthy (getProp existing "sha")
                   then getProp existing "sha" else VNull))].
Proof.
  intros Hdef Hget. unfold githubUpsertFile.
  assert (Henc : encodeContent JSON_stringify toBase64 contentJson
                 = Ok (toBase64 (JSON_stringify contentJson))).
  { destruct contentJson; try reflexivity. congruence. }
  rewrite exec_bind, Hget, thenRun_ok.
  rewrite exec_bind, Henc, exec_lift, thenRun_ok, prefixRun_nil.
  rewrite exec_bind, exec_fetch.
  destruct (transport _ w1) as [[resp | e] w2]; cbn [fst snd]; [| reflexivity].
  rewrite thenRun_ok. cbn [prefixRun calls]. f_equal.
  destruct (negb (ok resp)); [reflexivity |]. rewrite exec_lift. reflexivity.
Qed.

(** C5.  When the store's read primitive reports 404 for the path
    derived from the slug, [load] answers 404 "Not found": neither an
    error nor a body. *)
Theorem load_absent_not_found {W : Type}
    (transport : Request -> W -> Result Response * W)
    (slugParam key : jsstring) (resp : Response) (w w1 : W) :
  slugify' (VString slugParam) = Ok key ->
  transport (ReqGet (storagePath cfg key) (GITHUB_BRANCH cfg)) w = (Ok resp, w1) ->
  status resp = 404 ->
  exec transport (loadHandler' slugParam) w
  = MkRun (Ok notFound) w1 [ReqGet (storagePath cfg key) (GITHUB_BRANCH cfg)].
Proof.
  intros Hkey Hget H404. unfold loadHandler.
  rewrite exec_tryCatch, exec_bind, Hkey, exec_lift, thenRun_ok, prefixRun_nil.
  rewrite exec_bind, exec_githubGetContent, Hget. cbn [fst snd].
  rewrite H404. reflexivity.
Qed.

(** The run of [save] once the fields are there, the key is derived and
    the write has returned. *)
Lemma exec_saveHandler_written {W : Type}
    (transport : Request -> W -> Result Response * W)
    (now : jsstring) (body : value) (key who : jsstring) (result commit : value)
    (w w1 : W) (made : list Request) :
  let profile := getProp body "profile" in
  let checks := getProp body "checks" in
  truthy profile = true -> truthy checks = true ->
  slugify' (getProp profile "discord") = Ok key ->
  toStringJS' (jsOr (getProp profile "discord") (VString key)) = Ok who ->
  exec transport
    (githubUpsertFile' (storagePath cfg key) (envelope profile checks now)
       (str "Onboarding save for " ++ who)) w
  = MkRun (Ok result) w1 made ->
  commitOf result = Ok commit ->
  exec transport (saveHandler' now body) w
  = MkRun (Ok (saved (storagePath cfg key) commit)) w1 made.
Proof.
  intros profile checks Hp Hc Hkey Hwho Hwrite Hcommit.
  unfold saveHandler. rewrite !getProp_body. fold profile checks.
  rewrite Hp, Hc. cbn [negb orb].
  rewrite exec_tryCatch, exec_bind, Hkey, exec_lift, thenRun_ok, prefixRun_nil.
  rewrite exec_bind, Hwho, exec_lift, thenRun_ok, prefixRun_nil.
  rewrite exec_bind, Hwrite, thenRun_ok.
  rewrite exec_bind, Hcommit, exec_lift, thenRun_ok, prefixRun_nil.
  cbn [exec]. rewrite prefixRun_mk, app_nil_r. reflexivity.
Qed.

Lemma commitOf_omitted (result : value) :
  omitsCommitId result -> commitOf result = Ok VNull.
Proof.
  intros (Hnull & Hundef & Hsha). unfold commitOf.
  assert (E : member result "commit" = Ok (getProp result "commit")).
  { destruct result; try reflexivity; congruence. }
  rewrite E.
  assert (E' : match getProp result "commit" with
               | VUndefined | VNull => VUndefined
               | _ => getProp (getProp result "commit") "sha"
               end = getProp (getProp result "commit") "sha").
  { destruct (getProp result "commit"); reflexivity. }
  rewrite E'. unfold jsOr. rewrite Hsha. reflexivity.
Qed.

(** C9, amended.  When the write succeeds and the store answers it
    with a JSON document other than [null] that omits the commit
    identifier, [save] still answers 200 with [ok: true], the path, and
    [null] for [commit]. *)
Theorem save_without_commit_id {W : Type}
    (transport : Request -> W -> Result Response * W)
    (now : jsstring) (body : value) (key who : jsstring) (result : value)
    (w w1 : W) (made : list Request) :
  let profile := getProp body "profile" in
  let checks := getProp body "checks" in
  truthy profile = true -> truthy checks = true ->
  slugify' (getProp profile "discord") = Ok key ->
  toStringJS' (jsOr (getProp profile "discord") (VString key)) = Ok who ->
  exec transport
    (githubUpsertFile' (storagePath cfg key) (envelope profile checks now)
       (str "Onboarding save for " ++ who)) w
  = MkRun (Ok result) w1 made ->
  omitsCommitId result ->
  exec transport (saveHandler' now body) w
  = MkRun (Ok (saved (storagePath cfg key) VNull)) w1 made.
Proof.
  intros profile checks Hp Hc Hkey Hwho Hwrite Homit.
  apply (exec_saveHandler_written transport now body key who result VNull);
    auto using commitOf_omitted.
Qed.

End Handlers.

(** ** The client against the key-value store *)

Section StoreClient.

Variable unicodeLower : jsstring -> jsstring.
Variable numberToString : float -> jsstring.
Variable JSON_stringify : value -> jsstring.
Variable toBase64 : jsstring -> jsstring.
Variable fromBase64 : jsstring -> jsstring.
Variable bufferFromOther : value -> Result jsstring.
Variable cfg : Config.
Variable blobSha : jsstring -> jsstring.
Variable commitId : gmap (jsstring * jsstring) jsstring -> jsstring.
Variable wire : value -> jsstring.

Local Abbreviation store_t := (gmap (jsstring * jsstring) jsstring).
Local Abbreviation kv := (storeFetch blobSha commitId wire).
Local Abbreviation branch := (GITHUB_BRANCH cfg).

(** Tokens are never empty (a git hash has 40 digits). *)
Hypothesis blobSha_nonempty : forall content, blobSha content <> [].

Lemma exec_get_absent (path : jsstring) (store : store_t) :
  store !! (branch, path) = None ->
  exec kv (githubGetContent cfg path) store
  = MkRun (Ok VNull) store [ReqGet path branch].
Proof.
  intros H. rewrite exec_githubGetContent. cbn [storeFetch]. rewrite H.
  reflexivity.
Qed.

Lemma exec_get_present (path content : jsstring) (store : store_t) :
  store !! (branch, path) = Some content ->
  exec kv (githubGetContent cfg path) store
  = MkRun (Ok (VObject [(str "path", VString path);
                        (str "sha", VString (blobSha content));
                        (str "content", VString content);
                        (str "encoding", VString (str "base64"))]))
          store [ReqGet path branch].
Proof.
  intros H. rewrite exec_githubGetContent. cbn [storeFetch]. rewrite H.
  reflexivity.
Qed.

Lemma exec_upsert (path : jsstring) (contentJson : value) (message : jsstring)
    (store : store_t) :
  contentJson <> VUndefined ->
  let content := toBase64 (JSON_stringify contentJson) in
  let written := <[(branch, path) := content]> store in
  let body := {| body_message := match message with
                                 | [] => str "Update " ++ path
                                 | _ => message
                                 end;
                 body_content := content;
                 body_branch := branch;
                 body_sha := (fun c => VString (blobSha c)) <$> store !! (branch, path) |} in
  exec kv (githubUpsertFile JSON_stringify toBase64 cfg path contentJson message) store
  = MkRun (Ok (VObject [(str "content",
                         VObject [(str "path", VString path);
                                  (str "sha", VString (blobSha content))]);
                        (str "commit",
                         VObject [(str "sha", VString (commitId written))])]))
          written [ReqGet path branch; ReqPut path body].
Proof.
  intros Hdef content written body. unfold githubUpsertFile.
  assert (Henc : encodeContent JSON_stringify toBase64 contentJson = Ok content).
  { destruct contentJson; try reflexivity. congruence. }
  assert (Hsha : forall old : jsstring,
            getProp (VObject [(str "path", VString path);
                              (str "sha", VString (blobSha old));
                              (str "content", VString old);
                              (str "encoding", VString (str "base64"))]) "sha"
            = VString (blobSha old)) by reflexivity.
  assert (Hput : forall (code : N) (doc : value) (w : store_t),
            (200 <=? code) && (code <=? 299) = true ->
            exec kv (if negb (ok (MkResponse code (wire doc) (Some doc)))
                     then Throw (backendFailure "PUT" (MkResponse code (wire doc) (Some doc)))
                     else lift (respJson (MkResponse code (wire doc) (Some doc)))) w
            = MkRun (Ok doc) w []).
  { intros code doc w Hcode. unfold ok. cbn [status]. rewrite Hcode. reflexivity. }
  rewrite exec_bind.
  destruct (store !! (branch, path)) as [old |] eqn:Hold.
  - rewrite (exec_get_present path old store Hold), thenRun_ok.
    rewrite Hsha, (truthy_string _ (blobSha_nonempty old)).
    change (truthy (VObject ?l)) with true. cbn [andb].
    rewrite exec_bind, Henc, exec_lift, thenRun_ok, prefixRun_nil.
    rewrite exec_bind, exec_fetch.
    unfold upsertBody. rewrite (truthy_string _ (blobSha_nonempty old)).
    cbn [storeFetch body_branch body_sha body_content].
    rewrite Hold. unfold tokenMatches. rewrite bool_decide_eq_true_2 by reflexivity.
    unfold answer. cbn [fst snd]. rewrite thenRun_ok, Hput by reflexivity.
    reflexivity.
  - rewrite (exec_get_absent path store Hold), thenRun_ok.
    cbn [truthy andb].
    rewrite exec_bind, Henc, exec_lift, thenRun_ok, prefixRun_nil.
    rewrite exec_bind, exec_fetch.
    unfold upsertBody. cbn [truthy storeFetch body_branch body_sha body_content].
    rewrite Hold.
    unfold answer. cbn [fst snd]. rewrite thenRun_ok, Hput by reflexivity.
    reflexivity.
Qed.

(** C2.  Upsert first reads the object at the path, then calls the
    write primitive with the path, the branch, the commit message and
    the base64 of the pretty-printed JSON content; the write carries a
    [sha], the token the read discovered, exactly when the store held
    an object at the path. *)
Theorem upsert_reads_then_writes (path : jsstring) (contentJson : value)
    (message : jsstring) (store : store_t) :
  contentJson <> VUndefined ->
  calls (exec kv (githubUpsertFile JSON_stringify toBase64 cfg path contentJson message)
           store)
  = [ReqGet path branch;
     ReqPut path
       {| body_message := match message with
                          | [] => str "Update " ++ path
                          | _ => message
                          end;
          body_content := toBase64 (JSON_stringify contentJson);
          body_branch := branch;
          body_sha := (fun c => VString (blobSha c)) <$> store !! (branch, path) |}].
Proof.
  intros Hdef. rewrite (exec_upsert path contentJson message store Hdef).
  reflexivity.
Qed.

(** The text that [String] gives for the commit message exists as soon
    as the key does. *)
Lemma who_exists (discord : value) (key : jsstring) :
  slugify unicodeLower numberToString discord = Ok key ->
  exists who, toStringJS numberToString (jsOr discord (VString key)) = Ok who.
Proof.
  unfold slugify, jsOr. destruct (truthy discord); [| eauto].
  destruct (toStringJS numberToString discord); [eauto | discriminate].
Qed.

(** Save, then load under a slug that derives the same key. *)
Lemma save_then_load_same_key (now : jsstring) (body : value)
    (slugParam key : jsstring) (store : store_t) :
  let profile := getProp body "profile" in
  let checks := getProp body "checks" in
  let stored := JSON_stringify (envelope profile checks now) in
  let store' := <[(branch, storagePath cfg key) := toBase64 stored]> store in
  fromBase64 (toBase64 stored) = stored ->
  truthy profile = true -> truthy checks = true ->
  slugify unicodeLower numberToString (getProp profile "discord") = Ok key ->
  slugify unicodeLower numberToString (VString slugParam) = Ok key ->
  exists (commit : value) (made : list Request),
    exec kv (saveHandler unicodeLower numberToString JSON_stringify toBase64 cfg
               now body) store
    = MkRun (Ok (saved (storagePath cfg key) commit)) store' made
    /\ exec kv (loadHandler unicodeLower numberToString fromBase64 bufferFromOther
                  cfg slugParam) store'
       = MkRun (Ok (ReplySend 200 (str "application/json") stored))
               store' [ReqGet (storagePath cfg key) branch].
Proof.
  intros profile checks stored store' Hcodec Hp Hc Hkey Hslug.
  set (path := storagePath cfg key) in *.
  set (content := toBase64 stored) in *.
  destruct (who_exists _ _ Hkey) as [who Hwho].
  assert (Hdef : envelope profile checks now <> VUndefined) by discriminate.
  pose proof (exec_upsert path (envelope profile checks now)
                (str "Onboarding save for " ++ who) store Hdef) as Hwrite.
  cbv zeta in Hwrite. fold stored content store' in Hwrite.
  exists (jsOr (VString (commitId store')) VNull). eexists.
  split.
  - eapply (exec_saveHandler_written unicodeLower numberToString JSON_stringify
              toBase64 cfg kv now body key who); eauto.
  - unfold loadHandler.
    rewrite exec_tryCatch, exec_bind, Hslug, exec_lift, thenRun_ok, prefixRun_nil.
    fold path. rewrite exec_bind.
    rewrite (exec_get_present path content store')
      by (unfold store'; apply lookup_insert_eq).
    rewrite thenRun_ok. cbn [truthy negb].
    assert (Hcontent : decodeContent fromBase64 bufferFromOther
                         (getProp (VObject [(str "path", VString path);
                                            (str "sha", VString (blobSha content));
                                            (str "content", VString content);
                                            (str "encoding", VString (str "base64"))])
                            "content")
                       = Ok stored).
    { change (getProp _ "content") with (VString content).
      unfold decodeContent. rewrite Hcodec. reflexivity. }
    rewrite exec_bind, Hcontent, exec_lift, thenRun_ok, prefixRun_nil.
    cbn [exec]. rewrite prefixRun_mk, catchRun_ok. reflexivity.
Qed.


End StoreClient.

(** ** The properties at concrete requests *)


Lemma upsert_reads_then_writes_witness :
  calls (exec (storeFetch Sample.sha Sample.commit Sample.onWire)
           (githubUpsertFile Sample.stringify Sample.encode defaultConfig
              (str "saves/ann-bee.json") Sample.annBee (str "first save"))
           ∅)
  = [ReqGet (str "saves/ann-bee.json") (str "main");
     ReqPut (str "saves/ann-bee.json")
       (MkPutBody (str "first save") (Sample.stringify Sample.annBee)
          (str "main") None)].
Proof.
  apply (upsert_reads_then_writes Sample.stringify Sample.encode defaultConfig
           Sample.sha Sample.commit Sample.onWire).
  - intros content. discriminate.
  - discriminate.
Defined.

Lemma save_missing_field_rejected_witness :
  exec scripted
    (saveHandler Sample.lower Sample.numberText Sample.stringify Sample.encode
       defaultConfig Sample.now
       (VObject [(str "checks", VObject [(str "done", VBool true)])]))
    Sample.terse
  = MkRun (Ok missingFields) Sample.terse [].
Proof.
  apply save_missing_field_rejected. left. reflexivity.
Defined.

Lemma save_falsy_field_rejected_witness :
  exec scripted
    (saveHandler Sample.lower Sample.numberText Sample.stringify Sample.encode
       defaultConfig Sample.now
       (VObject [(str "profile", VObject [(str "discord", VString (str "Ann Bee"))]);
                 (str "checks", VNumber 0%float)]))
    Sample.terse
  = MkRun (Ok missingFields) Sample.terse [].
Proof.
  apply (save_falsy_field_rejected Sample.lower Sample.numberText Sample.stringify
           Sample.encode defaultConfig scripted Sample.now).
  right. split; [discriminate | reflexivity].
Defined.

Lemma shared_secret_gate_witness :
  (app Sample.lower Sample.numberText Sample.stringify Sample.encode Sample.decode
     Sample.fromOther Sample.secretConfig Sample.now
     (MkHttpRequest (Some (str "guess")) (PostSave Sample.annBee))
   = Ret unauthorized
   /\ exec scripted
        (app Sample.lower Sample.numberText Sample.stringify Sample.encode
           Sample.decode Sample.fromOther Sample.secretConfig Sample.now
           (MkHttpRequest (Some (str "guess")) (PostSave Sample.annBee)))
        Sample.terse
      = MkRun (Ok unauthorized) Sample.terse [])
  /\ app Sample.lower Sample.numberText Sample.stringify Sample.encode Sample.decode
       Sample.fromOther defaultConfig Sample.now
       (MkHttpRequest None (GetLoad (str "Ann Bee")))
     = route Sample.lower Sample.numberText Sample.stringify Sample.encode
         Sample.decode Sample.fromOther defaultConfig Sample.now
         (GetLoad (str "Ann Bee")).
Proof.
  split.
  - apply (shared_secret_gate Sample.lower Sample.numberText Sample.stringify
             Sample.encode Sample.decode Sample.fromOther Sample.secretConfig
             scripted Sample.now
             (MkHttpRequest (Some (str "guess")) (PostSave Sample.annBee))
             Sample.terse); discriminate.
  - apply (shared_secret_gate Sample.lower Sample.numberText Sample.stringify
             Sample.encode Sample.decode Sample.fromOther defaultConfig
             scripted Sample.now
             (MkHttpRequest None (GetLoad (str "Ann Bee"))) Sample.terse).
    reflexivity.
Defined.

Lemma load_absent_not_found_witness :
  exec (storeFetch Sample.sha Sample.commit Sample.onWire)
    (loadHandler Sample.lower Sample.numberText Sample.decode Sample.fromOther
       defaultConfig (str "Ann Bee")) ∅
  = MkRun (Ok notFound) ∅ [ReqGet (str "saves/ann-bee.json") (str "main")].
Proof.
  apply (load_absent_not_found Sample.lower Sample.numberText Sample.decode
           Sample.fromOther defaultConfig
           (storeFetch Sample.sha Sample.commit Sample.onWire)
           (str "Ann Bee") (str "ann-bee")
           (MkResponse 404 [] (Some (refusal "Not Found")))); reflexivity.
Defined.

Lemma health_ok_when_admitted_witness :
  exec scripted
    (app Sample.lower Sample.numberText Sample.stringify Sample.encode Sample.decode
       Sample.fromOther Sample.secretConfig Sample.now
       (MkHttpRequest (Some (str "s3cret")) GetHealth))
    Sample.terse
  = MkRun (Ok healthReply) Sample.terse [].
Proof.
  apply health_ok_when_admitted; [reflexivity | right; reflexivity].
Defined.

(** C6 as stated fails: with a secret configured, a request to the
    health endpoint that carries no [x-api-key] is answered 401. *)
Lemma health_without_key_unauthorized :
  outcome (exec scripted
             (app Sample.lower Sample.numberText Sample.stringify Sample.encode
                Sample.decode Sample.fromOther Sample.secretConfig Sample.now
                (MkHttpRequest None GetHealth))
             Sample.terse)
  = Ok (ReplyJson 401 (errorBody (str "Unauthorized")))
  /\ outcome (exec scripted
                (app Sample.lower Sample.numberText Sample.stringify Sample.encode
                   Sample.decode Sample.fromOther Sample.secretConfig Sample.now
                   (MkHttpRequest None GetHealth))
                Sample.terse)
     <> Ok (ReplyJson 200 (VObject [(str "ok", VBool true)])).
Proof. split; [reflexivity | discriminate]. Qed.

Lemma save_without_commit_id_witness :
  exec scripted
    (saveHandler Sample.lower Sample.numberText Sample.stringify Sample.encode
       defaultConfig Sample.now Sample.annBee)
    Sample.terse
  = MkRun (Ok (saved (str "saves/ann-bee.json") VNull)) []
      [ReqGet (str "saves/ann-bee.json") (str "main");
       ReqPut (str "saves/ann-bee.json")
         (MkPutBody (str "Onboarding save for Ann Bee")
            (Sample.stringify
               (envelope (getProp Sample.annBee "profile")
                  (getProp Sample.annBee "checks") Sample.now))
            (str "main") None)].
Proof.
  apply (save_without_commit_id Sample.lower Sample.numberText Sample.stringify
           Sample.encode defaultConfig scripted Sample.now Sample.annBee
           (str "ann-bee") (str "Ann Bee") (VObject [])).
  - reflexivity.
  - reflexivity.
  - reflexivity.
  - reflexivity.
  - reflexivity.
  - repeat split; discriminate.
Defined.

(** ** The example of the specification, and two saves under one key *)

Example ann_bee_saved :
  exec (storeFetch Sample.sha Sample.commit Sample.onWire)
    (saveHandler Sample.lower Sample.numberText Sample.stringify Sample.encode
       defaultConfig Sample.now Sample.annBee) ∅
  = MkRun (Ok (saved (str "saves/ann-bee.json") (VString (str "c1"))))
      {[ (str "main", str "saves/ann-bee.json") :=
           Sample.stringify
             (envelope (getProp Sample.annBee "profile")
                (getProp Sample.annBee "checks") Sample.now) ]}
      [ReqGet (str "saves/ann-bee.json") (str "main");
       ReqPut (str "saves/ann-bee.json")
         (MkPutBody (str "Onboarding save for Ann Bee")
            (Sample.stringify
               (envelope (getProp Sample.annBee "profile")
                  (getProp Sample.annBee "checks") Sample.now))
            (str "main") None)].
Proof. vm_compute. reflexivity. Qed.

Example second_save_carries_token :
  calls (exec (storeFetch Sample.sha Sample.commit Sample.onWire)
           (githubUpsertFile Sample.stringify Sample.encode defaultConfig
              (str "saves/ann-bee.json") Sample.annBee [])
           {[ (str "main", str "saves/ann-bee.json") := str "b2xk" ]})
  = [ReqGet (str "saves/ann-bee.json") (str "main");
     ReqPut (str "saves/ann-bee.json")
       (MkPutBody (str "Update saves/ann-bee.json") (Sample.stringify Sample.annBee)
          (str "main") (Some (VString (str "sha:b2xk"))))].
Proof. vm_compute. reflexivity. Qed.

(** A read that fails with a status other than 404 ends the upsert
    before any write. *)
Example upsert_stops_on_backend_failure :
  exec scripted
    (githubUpsertFile Sample.stringify Sample.encode defaultConfig
       (str "saves/ann-bee.json") Sample.annBee [])
    [Ok (MkResponse 500 (str "boom") None)]
  = MkRun (Err (MkExn (str "Error") (str "GitHub GET failed: 500 boom"))) []
      [ReqGet (str "saves/ann-bee.json") (str "main")].
Proof. vm_compute. reflexivity. Qed.

(** The load of the specification's example: the slug [ann-bee]
    derives the key under which ["Ann Bee"] was saved. *)
Example ann_bee_loaded :
  outcome
    (exec (storeFetch Sample.sha Sample.commit Sample.onWire)
       (loadHandler Sample.lower Sample.numberText Sample.decode Sample.fromOther
          defaultConfig (str "ann-bee"))
       {[ (str "main", str "saves/ann-bee.json") :=
            Sample.stringify
              (envelope (getProp Sample.annBee "profile")
                 (getProp Sample.annBee "checks") Sample.now) ]})
  = Ok (ReplySend 200 (str "application/json")
          (Sample.stringify
             (envelope (getProp Sample.annBee "profile")
                (getProp Sample.annBee "checks") Sample.now))).
Proof. vm_compute. reflexivity. Qed.

(** A store that answers a write with the document [null]: reading
    [result.commit] throws, and the catch block answers 500. *)
Example save_with_null_answer :
  outcome
    (exec scripted
       (saveHandler Sample.lower Sample.numberText Sample.stringify Sample.encode
          defaultConfig Sample.now Sample.annBee)
       [Ok (MkResponse 404 [] None); Ok (MkResponse 200 (str "null") (Some VNull))])
  = Ok (ReplyJson 500
          (errorBody (str "Cannot read properties of null or undefined"))).
Proof. vm_compute. reflexivity. Qed.

(** ** Runs of the handlers against any backend *)

Section HandlerRuns.

Variable unicodeLower : jsstring -> jsstring.
Variable numberToString : float -> jsstring.
Variable JSON_stringify : value -> jsstring.
Variable toBase64 : jsstring -> jsstring.
Variable fromBase64 : jsstring -> jsstring.
Variable bufferFromOther : value -> Result jsstring.
Variable cfg : Config.

Local Abbreviation slugify' := (slugify unicodeLower numberToString).
Local Abbreviation toStringJS' := (toStringJS numberToString).
Local Abbreviation githubUpsertFile' := (githubUpsertFile JSON_stringify toBase64 cfg).
Local Abbreviation saveHandler' :=
  (saveHandler unicodeLower numberToString JSON_stringify toBase64 cfg).
Local Abbreviation loadHandler' :=
  (loadHandler unicodeLower numberToString fromBase64 bufferFromOther cfg).
Local Abbreviation route' :=
  (route unicodeLower numberToString JSON_stringify toBase64 fromBase64
     bufferFromOther cfg).
Local Abbreviation app' :=
  (app unicodeLower numberToString JSON_stringify toBase64 fromBase64
     bufferFromOther cfg).
Local Abbreviation branch := (GITHUB_BRANCH cfg).

(** What the [catch] block makes of a run: the calls and the world of
    the body, and a reply in every case. *)
Lemma exec_handler {W : Type} (transport : Request -> W -> Result Response * W)
    (p : Prog Reply) (w : W) :
  exec transport (tryCatch p internalError) w
  = MkRun (Ok match outcome (exec transport p w) with
              | Ok reply => reply
              | Err e => ReplyJson 500 (errorBody (errorText e))
              end)
          (world (exec transport p w)) (calls (exec transport p w)).
Proof.
  rewrite exec_tryCatch. destruct (exec transport p w) as [[reply | e] w1 made].
  - reflexivity.
  - rewrite catchRun_err. cbn [internalError exec]. rewrite prefixRun_mk, app_nil_r.
    reflexivity.
Qed.

(** The run of [githubUpsertFile] once the read has returned. *)
Lemma exec_upsert_after_read {W : Type}
    (transport : Request -> W -> Result Response * W)
    (path : jsstring) (contentJson : value) (message : jsstring)
    (existing : value) (w w1 : W) (made : list Request) :
  contentJson <> VUndefined ->
  exec transport (githubGetContent cfg path) w = MkRun (Ok existing) w1 made ->
  let rq := ReqPut path
              (upsertBody cfg path (toBase64 (JSON_stringify contentJson)) message
                 (if truthy existing && truthy (getProp existing "sha")
                  then getProp existing "sha" else VNull)) in
  exec transport (githubUpsertFile' path contentJson message) w
  = MkRun (match fst (transport rq w1) with
           | Ok resp =>
               if negb (ok resp) then Err (backendFailure "PUT" resp)
               else respJson resp
           | Err e => Err e
           end)
          (snd (transport rq w1)) (made ++ [rq]).
Proof.
  intros Hdef Hget rq. unfold githubUpsertFile.
  assert (Henc : encodeContent JSON_stringify toBase64 contentJson
                 = Ok (toBase64 (JSON_stringify contentJson))).
  { destruct contentJson; try reflexivity. congruence. }
  rewrite exec_bind, Hget, thenRun_ok.
  rewrite exec_bind, Henc, exec_lift, thenRun_ok, prefixRun_nil.
  rewrite exec_bind, exec_fetch. fold rq.
  destruct (transport rq w1) as [[resp | e] w2]; cbn [fst snd]; [| reflexivity].
  rewrite thenRun_ok.
  destruct (negb (ok resp)); [reflexivity |]. rewrite exec_lift. reflexivity.
Qed.

(** The run of the body of [save] past the presence check. *)
Lemma exec_saveHandler_any {W : Type}
    (transport : Request -> W -> Result Response * W)
    (now : jsstring) (body : value) (key who : jsstring) (w : W) :
  let profile := getProp body "profile" in
  let checks := getProp body "checks" in
  truthy profile = true -> truthy checks = true ->
  slugify' (getProp profile "discord") = Ok key ->
  toStringJS' (jsOr (getProp profile "discord") (VString key)) = Ok who ->
  let written := exec transport
                   (githubUpsertFile' (storagePath cfg key)
                      (envelope profile checks now)
                      (str "Onboarding save for " ++ who)) w in
  exec transport (saveHandler' now body) w
  = MkRun (Ok match outcome written with
              | Ok result =>
                  match commitOf result with
                  | Ok commit => saved (storagePath cfg key) commit
                  | Err e => ReplyJson 500 (errorBody (errorText e))
                  end
              | Err e => ReplyJson 500 (errorBody (errorText e))
              end)
          (world written) (calls written).
Proof.
  intros profile checks Hp Hc Hkey Hwho written.
  unfold saveHandler. rewrite exec_handler, !getProp_body. fold profile checks.
  rewrite Hp, Hc. cbn [negb orb].
  rewrite exec_bind, Hkey, exec_lift, thenRun_ok, prefixRun_nil.
  rewrite exec_bind, Hwho, exec_lift, thenRun_ok, prefixRun_nil.
  rewrite exec_bind. fold written.
  destruct written as [[result | e] w1 made]; [| reflexivity].
  cbn [outcome world calls]. rewrite thenRun_ok, exec_bind, exec_lift.
  destruct (commitOf result) as [commit | e].
  - rewrite thenRun_ok, prefixRun_nil. cbn [exec]. rewrite prefixRun_mk, app_nil_r.
    reflexivity.
  - rewrite thenRun_err, prefixRun_mk, app_nil_r. reflexivity.
Qed.

(** *** Load *)

(** The run of [load]: one read of the path of the key, and a reply
    made of what the read gave. *)
Lemma exec_loadHandler {W : Type} (transport : Request -> W -> Result Response * W)
    (slugParam : jsstring) (w : W) :
  let rq := ReqGet (storagePath cfg (slugOfString unicodeLower slugParam)) branch in
  exec transport (loadHandler' slugParam) w
  = MkRun (Ok match outcome (exec transport
                               (githubGetContent cfg
                                  (storagePath cfg (slugOfString unicodeLower slugParam)))
                               w) with
              | Ok data =>
                  if negb (truthy data) then notFound
                  else match decodeContent fromBase64 bufferFromOther
                               (getProp data "content") with
                       | Ok content => ReplySend 200 (str "application/json") content
                       | Err e => ReplyJson 500 (errorBody (errorText e))
                       end
              | Err e => ReplyJson 500 (errorBody (errorText e))
              end)
          (snd (transport rq w)) [rq].
Proof.
  intros rq. unfold loadHandler.
  rewrite exec_handler, exec_bind, slugify_string, exec_lift, thenRun_ok, prefixRun_nil.
  rewrite exec_bind, exec_githubGetContent. fold rq. cbn [outcome].
  destruct (match fst (transport rq w) with
            | Ok resp =>
                if status resp =? 404 then Ok VNull
                else if negb (ok resp) then Err (backendFailure "GET" resp)
                else respJson resp
            | Err e => Err e
            end) as [data | e]; [| reflexivity].
  rewrite thenRun_ok. destruct (negb (truthy data)); [reflexivity |].
  rewrite exec_bind, exec_lift.
  destruct (decodeContent fromBase64 bufferFromOther (getProp data "content"));
    reflexivity.
Qed.

(** X1.  Whatever the backend answers, [load] calls it once, to read the
    file of the key derived from the slug: it never writes and never
    reads twice. *)
Theorem load_reads_once {W : Type} (transport : Request -> W -> Result Response * W)
    (slugParam : jsstring) (w : W) :
  exists key,
    slugify' (VString slugParam) = Ok key
    /\ calls (exec transport (loadHandler' slugParam) w)
       = [ReqGet (storagePath cfg key) branch].
Proof.
  exists (slugOfString unicodeLower slugParam).
  split; [apply slugify_string |]. rewrite exec_loadHandler. reflexivity.
Qed.

(** X2.  When the read fails, [load] answers 500 and passes the failure
    on: the status and the body of a response that is neither 404 nor a
    success, the message of a rejected fetch. *)
Theorem load_backend_failure {W : Type}
    (transport : Request -> W -> Result Response * W)
    (slugParam key : jsstring) (w : W) :
  slugify' (VString slugParam) = Ok key ->
  let rq := ReqGet (storagePath cfg key) branch in
  (forall (resp : Response) (w1 : W),
     transport rq w = (Ok resp, w1) -> status resp <> 404 -> ok resp = false ->
     exec transport (loadHandler' slugParam) w
     = MkRun (Ok (ReplyJson 500
                    (errorBody (str "GitHub GET failed: " ++ decimal (status resp)
                                  ++ str " " ++ text resp))))
             w1 [rq])
  /\ (forall (e : Exn) (w1 : W),
        transport rq w = (Err e, w1) ->
        exec transport (loadHandler' slugParam) w
        = MkRun (Ok (ReplyJson 500 (errorBody (errorText e)))) w1 [rq]).
Proof.
  rewrite slugify_string. intros [= <-] rq. split.
  - intros resp w1 Hget H404 Hok.
    rewrite exec_loadHandler, exec_githubGetContent. fold rq. rewrite Hget.
    cbn [fst snd outcome]. rewrite (proj2 (N.eqb_neq _ _) H404), Hok. reflexivity.
  - intros e w1 Hget.
    rewrite exec_loadHandler, exec_githubGetContent. fold rq. rewrite Hget.
    reflexivity.
Qed.

(** X3.  A successful read whose document is falsy ([null], [false],
    [0], an empty string) is answered 404, like an absent file. *)
Theorem load_falsy_document_not_found {W : Type}
    (transport : Request -> W -> Result Response * W)
    (slugParam key : jsstring) (resp : Response) (doc : value) (w w1 : W) :
  slugify' (VString slugParam) = Ok key ->
  transport (ReqGet (storagePath cfg key) branch) w = (Ok resp, w1) ->
  ok resp = true -> json resp = Some doc -> truthy doc = false ->
  exec transport (loadHandler' slugParam) w
  = MkRun (Ok notFound) w1 [ReqGet (storagePath cfg key) branch].
Proof.
  rewrite slugify_string. intros [= <-] Hget Hok Hjson Hdoc.
  rewrite exec_loadHandler, exec_githubGetContent, Hget. cbn [fst snd outcome].
  destruct (status resp =? 404); [reflexivity |].
  rewrite Hok. cbn [negb]. unfold respJson. rewrite Hjson. cbv beta iota.
  rewrite Hdoc. reflexivity.
Qed.

(** X4.  A successful read of a document whose [content] is a string is
    answered 200 with the decoded content as it is, whatever it holds:
    the stored text is not parsed, and no field of it is required. *)
Theorem load_passes_content_through {W : Type}
    (transport : Request -> W -> Result Response * W)
    (slugParam key content : jsstring) (resp : Response) (doc : value) (w w1 : W) :
  slugify' (VString slugParam) = Ok key ->
  transport (ReqGet (storagePath cfg key) branch) w = (Ok resp, w1) ->
  status resp <> 404 -> ok resp = true -> json resp = Some doc ->
  truthy doc = true -> getProp doc "content" = VString content ->
  exec transport (loadHandler' slugParam) w
  = MkRun (Ok (ReplySend 200 (str "application/json") (fromBase64 content)))
          w1 [ReqGet (storagePath cfg key) branch].
Proof.
  rewrite slugify_string. intros [= <-] Hget H404 Hok Hjson Hdoc Hcontent.
  rewrite exec_loadHandler, exec_githubGetContent, Hget. cbn [fst snd outcome].
  rewrite (proj2 (N.eqb_neq _ _) H404), Hok. cbn [negb]. unfold respJson.
  rewrite Hjson. cbv beta iota. rewrite Hdoc, Hcontent. reflexivity.
Qed.

(** X5.  No exception leaves [load]: every run ends with a reply, which
    is 404 "Not found", a 500 with an error message, or a 200 that
    sends text as [application/json]. *)
Theorem load_reply_kinds {W : Type}
    (transport : Request -> W -> Result Response * W)
    (slugParam : jsstring) (w : W) :
  exists reply,
    outcome (exec transport (loadHandler' slugParam) w) = Ok reply
    /\ (reply = notFound
        \/ (exists msg, reply = ReplyJson 500 (errorBody msg))
        \/ (exists content, reply = ReplySend 200 (str "application/json") content)).
Proof.
  rewrite exec_loadHandler. cbn [outcome]. eexists. split; [reflexivity |].
  destruct (outcome _) as [data | e]; [| eauto].
  destruct (negb (truthy data)); [eauto |].
  destruct (decodeContent _ _ _); eauto.
Qed.

(** *** Save *)

(** Upsert against any backend: a read that fails and nothing else, or
    the read and then one write of the same path. *)
Lemma upsert_run_shape {W : Type}
    (transport : Request -> W -> Result Response * W)
    (path : jsstring) (contentJson : value) (message : jsstring) (w : W) :
  contentJson <> VUndefined ->
  let run := exec transport (githubUpsertFile' path contentJson message) w in
  (calls run = [ReqGet path branch] /\ exists e, outcome run = Err e)
  \/ (exists sha,
        calls run
        = [ReqGet path branch;
           ReqPut path
             (upsertBody cfg path (toBase64 (JSON_stringify contentJson)) message sha)]).
Proof.
  intros Hdef run. subst run.
  pose proof (exec_githubGetContent cfg transport path w) as Hget.
  destruct (match fst (transport (ReqGet path branch) w) with
            | Ok resp =>
                if status resp =? 404 then Ok VNull
                else if negb (ok resp) then Err (backendFailure "GET" resp)
                else respJson resp
            | Err e => Err e
            end) as [existing | e].
  - right. eexists.
    rewrite (exec_upsert_after_read transport path contentJson message existing
               w _ _ Hdef Hget).
    reflexivity.
  - left.
    rewrite (exec_upsert_read_failed JSON_stringify toBase64 cfg transport path
               contentJson message e w _ _ Hget).
    eauto.
Qed.

(** The run of [save] when the identifying field cannot be made a
    string. *)
Lemma exec_saveHandler_no_key {W : Type}
    (transport : Request -> W -> Result Response * W)
    (now : jsstring) (body : value) (e : Exn) (w : W) :
  let profile := getProp body "profile" in
  let checks := getProp body "checks" in
  truthy profile = true -> truthy checks = true ->
  slugify' (getProp profile "discord") = Err e ->
  exec transport (saveHandler' now body) w
  = MkRun (Ok (ReplyJson 500 (errorBody (errorText e)))) w [].
Proof.
  intros profile checks Hp Hc Hkey.
  unfold saveHandler. rewrite exec_handler, !getProp_body. fold profile checks.
  rewrite Hp, Hc. cbn [negb orb].
  rewrite exec_bind, Hkey, exec_lift, thenRun_err. reflexivity.
Qed.

(** X6.  No exception leaves [save]: every run ends with a reply, which
    is the 400 of missing fields, a 500 with an error message, or the
    200 that names the path of a key of the pattern. *)
Theorem save_reply_kinds {W : Type}
    (transport : Request -> W -> Result Response * W)
    (now : jsstring) (body : value) (w : W) :
  exists reply,
    outcome (exec transport (saveHandler' now body) w) = Ok reply
    /\ (reply = missingFields
        \/ (exists msg, reply = ReplyJson 500 (errorBody msg))
        \/ (exists key commit,
              Matches slugPattern key /\ reply = saved (storagePath cfg key) commit)).
Proof.
  destruct (truthy (getProp body "profile")) eqn:Hp;
    [| rewrite saveHandler_rejects by auto; eexists; split; [reflexivity | eauto]].
  destruct (truthy (getProp body "checks")) eqn:Hc;
    [| rewrite saveHandler_rejects by auto; eexists; split; [reflexivity | eauto]].
  destruct (slugify' (getProp (getProp body "profile") "discord")) as [key | e] eqn:Hkey.
  - destruct (who_exists _ _ _ _ Hkey) as [who Hwho].
    rewrite (exec_saveHandler_any transport now body key who w Hp Hc Hkey Hwho).
    cbn [outcome]. eexists. split; [reflexivity |].
    destruct (outcome _) as [result | e]; [| eauto].
    destruct (commitOf result) as [commit | e]; [| eauto].
    right; right. exists key, commit.
    split; [eapply isSlug_matches, slugify_isSlug, Hkey | reflexivity].
  - rewrite (exec_saveHandler_no_key transport now body e w Hp Hc Hkey).
    eexists. split; [reflexivity | eauto].
Qed.

(** X7.  Whatever the backend answers, [save] calls it at most twice:
    nothing, or the read of the file of the key, or that read followed
    by one write of the same file.  It never writes without having
    read, and never repeats a call. *)
Theorem save_calls_shape {W : Type}
    (transport : Request -> W -> Result Response * W)
    (now : jsstring) (body : value) (w : W) :
  let made := calls (exec transport (saveHandler' now body) w) in
  made = []
  \/ exists key,
       slugify' (getProp (getProp body "profile") "discord") = Ok key
       /\ (made = [ReqGet (storagePath cfg key) branch]
           \/ exists put,
                made = [ReqGet (storagePath cfg key) branch;
                        ReqPut (storagePath cfg key) put]).
Proof.
  intros made. subst made.
  destruct (truthy (getProp body "profile")) eqn:Hp;
    [| rewrite saveHandler_rejects by auto; left; reflexivity].
  destruct (truthy (getProp body "checks")) eqn:Hc;
    [| rewrite saveHandler_rejects by auto; left; reflexivity].
  destruct (slugify' (getProp (getProp body "profile") "discord")) as [key | e] eqn:Hkey.
  - right. exists key. split; [reflexivity |].
    destruct (who_exists _ _ _ _ Hkey) as [who Hwho].
    rewrite (exec_saveHandler_any transport now body key who w Hp Hc Hkey Hwho).
    cbn [calls].
    destruct (upsert_run_shape transport (storagePath cfg key)
                (envelope (getProp body "profile") (getProp body "checks") now)
                (str "Onboarding save for " ++ who) w)
      as [[Hcalls _] | [sha Hcalls]]; [discriminate | | ]; rewrite Hcalls; eauto.
  - left. rewrite (exec_saveHandler_no_key transport now body e w Hp Hc Hkey).
    reflexivity.
Qed.

(** X8.  [save] answers 200 only after it has issued the write: the
    calls are then the read and the write of the file of the key, the
    write carrying the base64 of the serialised envelope of the
    request, on the configured branch. *)
Theorem save_success_means_written {W : Type}
    (transport : Request -> W -> Result Response * W)
    (now : jsstring) (body doc : value) (w : W) :
  let profile := getProp body "profile" in
  let checks := getProp body "checks" in
  outcome (exec transport (saveHandler' now body) w) = Ok (ReplyJson 200 doc) ->
  exists key commit put,
    slugify' (getProp profile "discord") = Ok key
    /\ ReplyJson 200 doc = saved (storagePath cfg key) commit
    /\ calls (exec transport (saveHandler' now body) w)
       = [ReqGet (storagePath cfg key) branch; ReqPut (storagePath cfg key) put]
    /\ body_content put = toBase64 (JSON_stringify (envelope profile checks now))
    /\ body_branch put = branch.
Proof.
  intros profile checks. subst profile checks.
  destruct (truthy (getProp body "profile")) eqn:Hp;
    [| rewrite saveHandler_rejects by auto; discriminate].
  destruct (truthy (getProp body "checks")) eqn:Hc;
    [| rewrite saveHandler_rejects by auto; discriminate].
  destruct (slugify' (getProp (getProp body "profile") "discord")) as [key | e] eqn:Hkey;
    [| rewrite (exec_saveHandler_no_key transport now body e w Hp Hc Hkey);
       discriminate].
  destruct (who_exists _ _ _ _ Hkey) as [who Hwho].
  rewrite (exec_saveHandler_any transport now body key who w Hp Hc Hkey Hwho).
  cbn [outcome calls].
  destruct (upsert_run_shape transport (storagePath cfg key)
              (envelope (getProp body "profile") (getProp body "checks") now)
              (str "Onboarding save for " ++ who) w)
    as [[_ [e He]] | [sha Hcalls]]; [discriminate | rewrite He; discriminate |].
  destruct (outcome _) as [result | e]; [| discriminate].
  destruct (commitOf result) as [commit | e]; [| discriminate].
  intros [= <-]. exists key, commit. eexists.
  split; [reflexivity |]. split; [reflexivity |]. split; [exact Hcalls |].
  split; reflexivity.
Qed.

(** X9.  When the read of [save] is answered with a status that is
    neither 404 nor a success, [save] answers 500 with that status and
    body, and does not write. *)
Theorem save_read_failure {W : Type}
    (transport : Request -> W -> Result Response * W)
    (now : jsstring) (body : value) (key : jsstring) (resp : Response) (w w1 : W) :
  let profile := getProp body "profile" in
  let checks := getProp body "checks" in
  truthy profile = true -> truthy checks = true ->
  slugify' (getProp profile "discord") = Ok key ->
  transport (ReqGet (storagePath cfg key) branch) w = (Ok resp, w1) ->
  status resp <> 404 -> ok resp = false ->
  exec transport (saveHandler' now body) w
  = MkRun (Ok (ReplyJson 500
                 (errorBody (str "GitHub GET failed: " ++ decimal (status resp)
                               ++ str " " ++ text resp))))
          w1 [ReqGet (storagePath cfg key) branch].
Proof.
  intros profile checks Hp Hc Hkey Hget H404 Hok.
  destruct (who_exists _ _ _ _ Hkey) as [who Hwho].
  rewrite (exec_saveHandler_any transport now body key who w Hp Hc Hkey Hwho).
  rewrite (exec_upsert_read_failed JSON_stringify toBase64 cfg transport
             (storagePath cfg key) _ _ (backendFailure "GET" resp) w w1
             [ReqGet (storagePath cfg key) branch]); [reflexivity |].
  rewrite exec_githubGetContent, Hget. cbn [fst snd].
  rewrite (proj2 (N.eqb_neq _ _) H404), Hok. reflexivity.
Qed.

(** X10.  When the file is new and the write is answered with a status
    that is not a success, [save] answers 500 with that status and
    body, after the one write: it does not try again. *)
Theorem save_write_failure {W : Type}
    (transport : Request -> W -> Result Response * W)
    (now : jsstring) (body : value) (key who : jsstring)
    (found refused : Response) (w w1 w2 : W) :
  let profile := getProp body "profile" in
  let checks := getProp body "checks" in
  let path := storagePath cfg key in
  let put := ReqPut path
               (upsertBody cfg path
                  (toBase64 (JSON_stringify (envelope profile checks now)))
                  (str "Onboarding save for " ++ who) VNull) in
  truthy profile = true -> truthy checks = true ->
  slugify' (getProp profile "discord") = Ok key ->
  toStringJS' (jsOr (getProp profile "discord") (VString key)) = Ok who ->
  transport (ReqGet path branch) w = (Ok found, w1) -> status found = 404 ->
  transport put w1 = (Ok refused, w2) -> ok refused = false ->
  exec transport (saveHandler' now body) w
  = MkRun (Ok (ReplyJson 500
                 (errorBody (str "GitHub PUT failed: " ++ decimal (status refused)
                               ++ str " " ++ text refused))))
          w2 [ReqGet path branch; put].
Proof.
  intros profile checks path put Hp Hc Hkey Hwho Hget H404 Hput Hok.
  rewrite (exec_saveHandler_any transport now body key who w Hp Hc Hkey Hwho).
  fold profile checks path.
  assert (Hdef : envelope profile checks now <> VUndefined) by discriminate.
  assert (Hread : exec transport (githubGetContent cfg path) w
                  = MkRun (Ok VNull) w1 [ReqGet path branch]).
  { rewrite exec_githubGetContent, Hget. cbn [fst snd]. rewrite H404. reflexivity. }
  rewrite (exec_upsert_after_read transport path _ _ VNull w w1 _ Hdef Hread).
  cbn [truthy andb]. fold put. rewrite Hput. cbn [fst snd outcome world calls].
  rewrite Hok. reflexivity.
Qed.

(** X11.  When [profile.discord] is an object with a [toString] property
    of its own, which [String] cannot convert, [save] answers 500
    without calling the backend. *)
Theorem save_unconvertible_discord {W : Type}
    (transport : Request -> W -> Result Response * W)
    (now : jsstring) (body : value) (props : list (jsstring * value)) (w : W) :
  let profile := getProp body "profile" in
  let checks := getProp body "checks" in
  truthy profile = true -> truthy checks = true ->
  getProp profile "discord" = VObject props ->
  lookupProp (str "toString") props <> None ->
  exists msg,
    exec transport (saveHandler' now body) w
    = MkRun (Ok (ReplyJson 500 (errorBody msg))) w [].
Proof.
  intros profile checks Hp Hc Hdiscord Hown.
  eexists. apply exec_saveHandler_no_key; [exact Hp | exact Hc |].
  fold profile. rewrite Hdiscord. unfold slugify, jsOr. cbn [truthy toStringJS].
  destruct (lookupProp (str "toString") props); [reflexivity | congruence].
Qed.

(** X12.  When [profile.discord] is missing or falsy, the record goes to
    the file of the fallback key ["player"].  [save] reads that file;
    when the read returns (the document of the file, or [null] for a
    404) it then writes that file, with the message "Onboarding save
    for player" and the [sha] of what the read found; when the read
    fails it writes nothing. *)
Theorem save_anonymous_uses_player {W : Type}
    (transport : Request -> W -> Result Response * W)
    (now : jsstring) (body : value) (w : W) :
  let profile := getProp body "profile" in
  let checks := getProp body "checks" in
  let path := storagePath cfg (str "player") in
  let read := exec transport (githubGetContent cfg path) w in
  let made := calls (exec transport (saveHandler' now body) w) in
  truthy profile = true -> truthy checks = true ->
  truthy (getProp profile "discord") = false ->
  (forall existing,
     outcome read = Ok existing ->
     made = [ReqGet path branch;
             ReqPut path
               (upsertBody cfg path
                  (toBase64 (JSON_stringify (envelope profile checks now)))
                  (str "Onboarding save for player")
                  (if truthy existing && truthy (getProp existing "sha")
                   then getProp existing "sha" else VNull))])
  /\ (forall e, outcome read = Err e -> made = [ReqGet path branch]).
Proof.
  intros profile checks path read made Hp Hc Hanon. subst made.
  assert (Hkey : slugify' (getProp profile "discord") = Ok (str "player")).
  { unfold slugify, jsOr. rewrite Hanon. reflexivity. }
  assert (Hwho : toStringJS' (jsOr (getProp profile "discord") (VString (str "player")))
                 = Ok (str "player")).
  { unfold jsOr. rewrite Hanon. reflexivity. }
  rewrite (exec_saveHandler_any transport now body _ _ w Hp Hc Hkey Hwho).
  cbn [calls]. fold profile checks path.
  assert (Hdef : envelope profile checks now <> VUndefined) by discriminate.
  assert (Hread : read = MkRun (outcome read) (world read) [ReqGet path branch]).
  { unfold read. rewrite exec_githubGetContent. reflexivity. }
  split.
  - intros existing Hok. rewrite Hok in Hread.
    rewrite (exec_upsert_after_read transport path _ _ existing w _ _ Hdef Hread).
    reflexivity.
  - intros e Herr. rewrite Herr in Hread.
    rewrite (exec_upsert_read_failed JSON_stringify toBase64 cfg transport path
               _ _ e w _ _ Hread).
    reflexivity.
Qed.

(** *** The application *)


End HandlerRuns.

(** ** More on the key normaliser *)

Lemma keyUnit_not_slash_dot (c : N) : keyUnit c -> c <> 47 /\ c <> 46.
Proof. intros H. apply keyUnit_range in H. lia. Qed.

Lemma filter_replaceRuns (inRun : bool) (s : jsstring) :
  List.filter isAlnum (replaceRuns inRun s) = List.filter isAlnum s.
Proof.
  revert inRun. induction s as [| c t IH]; intros inRun; [reflexivity |].
  simpl. destruct (isAlnum c) eqn:Ec.
  - simpl. rewrite Ec, IH. reflexivity.
  - destruct inRun; [apply IH |]. simpl. apply IH.
Qed.

Lemma filter_dropLeadingHyphen (s : jsstring) :
  List.filter isAlnum (dropLeadingHyphen s) = List.filter isAlnum s.
Proof.
  destruct s as [| c t]; [reflexivity |]. simpl.
  destruct (N.eqb_spec c hyphen) as [-> | _]; reflexivity.
Qed.

Lemma filter_dropTrailingHyphen (s : jsstring) :
  List.filter isAlnum (dropTrailingHyphen s) = List.filter isAlnum s.
Proof.
  induction s as [| c t IH]; [reflexivity |].
  destruct t as [| d t].
  - simpl. destruct (N.eqb_spec c hyphen) as [-> | _]; reflexivity.
  - rewrite dropTrailingHyphen_cons. remember (d :: t) as u eqn:Eu.
    simpl. rewrite IH. reflexivity.
Qed.

Lemma filter_stripped (s : jsstring) :
  List.filter isAlnum (stripEdgeHyphens (replaceRuns false s))
  = List.filter isAlnum s.
Proof.
  unfold stripEdgeHyphens.
  rewrite filter_dropTrailingHyphen, filter_dropLeadingHyphen, filter_replaceRuns.
  reflexivity.
Qed.

Lemma replaceRuns_no_alnum (inRun : bool) (s : jsstring) :
  List.filter isAlnum s = [] ->
  replaceRuns inRun s = [] \/ (inRun = false /\ replaceRuns inRun s = [hyphen]).
Proof.
  revert inRun. induction s as [| c t IH]; intros inRun H; [left; reflexivity |].
  simpl in *. destruct (isAlnum c); [discriminate |].
  destruct (IH true H) as [E | [E _]]; [| discriminate].
  destruct inRun; [left; exact E | right; rewrite E; auto].
Qed.

Section KeyNormaliserMore.

Variable unicodeLower : jsstring -> jsstring.
Variable numberToString : float -> jsstring.

Local Abbreviation slugify' := (slugify unicodeLower numberToString).

(** X14.  Whatever JSON value the identifying field holds, a key that
    [slugify] returns matches the pattern, and so has neither a slash
    nor a dot: the storage path stays in the configured directory. *)
Theorem slugify_key_is_path_safe (input : value) (key : jsstring) :
  slugify' input = Ok key ->
  Matches slugPattern key /\ ~ In 47 key /\ ~ In 46 key.
Proof.
  intros H. apply slugify_isSlug in H.
  split; [apply isSlug_matches, H |].
  pose proof (hyphenated_units _ _ _ H) as Hu. rewrite Forall_forall in Hu.
  split; intros Hin; apply list_elem_of_In, Hu, keyUnit_not_slash_dot in Hin; lia.
Qed.

(** X15.  [slugify] falls back to ["player"] for every falsy input
    ([undefined], [null], [false], [0], the empty string) and for every
    string that, trimmed and lower-cased, has no letter and no digit. *)
Theorem slugify_fallback :
  (forall input, truthy input = false -> slugify' input = Ok (str "player"))
  /\ (forall s, List.filter isAlnum (toLowerCase unicodeLower (trim s)) = [] ->
               slugify' (VString s) = Ok (str "player")).
Proof.
  split.
  - intros input H. unfold slugify, jsOr. rewrite H. reflexivity.
  - intros s H. rewrite slugify_string. f_equal. unfold slugOfString, stripEdgeHyphens.
    destruct (replaceRuns_no_alnum false _ H) as [-> | [_ ->]]; reflexivity.
Qed.

(** X16.  The key keeps the letters and digits of the trimmed,
    lower-cased input, all of them and in their order: only what
    separates them is replaced. *)
Theorem slugify_keeps_letters_and_digits (s : jsstring) :
  List.filter isAlnum (toLowerCase unicodeLower (trim s)) <> [] ->
  exists key,
    slugify' (VString s) = Ok key
    /\ List.filter isAlnum key
       = List.filter isAlnum (toLowerCase unicodeLower (trim s)).
Proof.
  intros H. exists (slugOfString unicodeLower s). split; [apply slugify_string |].
  unfold slugOfString.
  pose proof (filter_stripped (toLowerCase unicodeLower (trim s))) as E.
  destruct (stripEdgeHyphens _) as [| c t]; [| exact E].
  symmetry in E. contradiction.
Qed.

(** Lower-casing ASCII commutes with trimming. *)
Lemma isWhiteSpace_asciiLower (c : N) :
  isWhiteSpace (asciiLower c) = isWhiteSpace c.
Proof.
  unfold asciiLower. destruct ((65 <=? c) && (c <=? 90)) eqn:E; [| reflexivity].
  apply andb_true_iff in E as [E1 E2]. apply N.leb_le in E1, E2.
  unfold isWhiteSpace. order_bools. reflexivity.
Qed.

Lemma dropWhile_map_lower (s : jsstring) :
  dropWhile isWhiteSpace (map asciiLower s)
  = map asciiLower (dropWhile isWhiteSpace s).
Proof.
  induction s as [| c t IH]; [reflexivity |]. simpl.
  rewrite isWhiteSpace_asciiLower. destruct (isWhiteSpace c); [exact IH | reflexivity].
Qed.

Lemma trim_map_lower (s : jsstring) :
  trim (map asciiLower s) = map asciiLower (trim s).
Proof.
  unfold trim. rewrite dropWhile_map_lower, <- map_rev, dropWhile_map_lower, map_rev.
  reflexivity.
Qed.

Lemma dropWhile_ascii (p : N -> bool) (s : jsstring) :
  forallb isAscii s = true -> forallb isAscii (dropWhile p s) = true.
Proof.
  induction s as [| c t IH]; [trivial |]. intros H. simpl.
  destruct (p c); [| exact H]. simpl in H. apply andb_true_iff in H as [_ H]. auto.
Qed.

Lemma rev_ascii (s : jsstring) :
  forallb isAscii s = true -> forallb isAscii (rev s) = true.
Proof.
  rewrite !forallb_forall. intros H c Hc. apply H, in_rev, Hc.
Qed.

Lemma trim_ascii (s : jsstring) :
  forallb isAscii s = true -> forallb isAscii (trim s) = true.
Proof.
  intros H. unfold trim. auto using rev_ascii, dropWhile_ascii.
Qed.

Lemma asciiLower_ascii (s : jsstring) :
  forallb isAscii s = true -> forallb isAscii (map asciiLower s) = true.
Proof.
  induction s as [| c t IH]; [trivial |]. simpl. intros H.
  apply andb_true_iff in H as [Hc Ht]. rewrite (IH Ht), andb_true_r.
  unfold isAscii, asciiLower in *. apply N.ltb_lt in Hc.
  destruct ((65 <=? c) && (c <=? 90)) eqn:E; apply N.ltb_lt; [| exact Hc].
  apply andb_true_iff in E as [_ E]. apply N.leb_le in E. lia.
Qed.

Lemma asciiLower_idem (c : N) : asciiLower (asciiLower c) = asciiLower c.
Proof.
  unfold asciiLower. destruct ((65 <=? c) && (c <=? 90)) eqn:E; [| rewrite E; reflexivity].
  apply andb_true_iff in E as [E1 E2]. apply N.leb_le in E1, E2.
  order_bools. reflexivity.
Qed.

(** X17.  On ASCII input the key does not depend on the case of the
    letters: an identifier and its lower-cased form get the same key,
    hence the same file. *)
Theorem slugify_ignores_ascii_case (s : jsstring) :
  forallb isAscii s = true ->
  slugify' (VString (map asciiLower s)) = slugify' (VString s).
Proof.
  intros H. rewrite !slugify_string. f_equal. unfold slugOfString.
  rewrite trim_map_lower. unfold toLowerCase.
  rewrite (asciiLower_ascii _ (trim_ascii s H)), (trim_ascii s H).
  rewrite map_map. rewrite (map_ext _ asciiLower asciiLower_idem). reflexivity.
Qed.

End KeyNormaliserMore.

(** ** Saves against the key-value store *)

Section StoreRuns.

Variable unicodeLower : jsstring -> jsstring.
Variable numberToString : float -> jsstring.
Variable JSON_stringify : value -> jsstring.
Variable toBase64 : jsstring -> jsstring.
Variable fromBase64 : jsstring -> jsstring.
Variable bufferFromOther : value -> Result jsstring.
Variable cfg : Config.
Variable blobSha : jsstring -> jsstring.
Variable commitId : gmap (jsstring * jsstring) jsstring -> jsstring.
Variable wire : value -> jsstring.

Local Abbreviation store_t := (gmap (jsstring * jsstring) jsstring).
Local Abbreviation kv := (storeFetch blobSha commitId wire).
Local Abbreviation branch := (GITHUB_BRANCH cfg).
Local Abbreviation slugify' := (slugify unicodeLower numberToString).
Local Abbreviation saveHandler' :=
  (saveHandler unicodeLower numberToString JSON_stringify toBase64 cfg).
Local Abbreviation loadHandler' :=
  (loadHandler unicodeLower numberToString fromBase64 bufferFromOther cfg).

Hypothesis blobSha_nonempty : forall content, blobSha content <> [].

(** A save of a body that has its fields and a key always succeeds on
    the store, whatever the file held before. *)
Lemma exec_save_on_store (now : jsstring) (body : value) (key : jsstring)
    (store : store_t) :
  let profile := getProp body "profile" in
  let checks := getProp body "checks" in
  truthy profile = true -> truthy checks = true ->
  slugify' (getProp profile "discord") = Ok key ->
  exists (commit : value) (made : list Request),
    exec kv (saveHandler' now body) store
    = MkRun (Ok (saved (storagePath cfg key) commit))
            (<[(branch, storagePath cfg key)
               := toBase64 (JSON_stringify (envelope profile checks now))]> store)
            made.
Proof.
  intros profile checks Hp Hc Hkey.
  destruct (who_exists _ _ _ _ Hkey) as [who Hwho].
  assert (Hdef : envelope profile checks now <> VUndefined) by discriminate.
  pose proof (exec_upsert JSON_stringify toBase64 cfg blobSha commitId wire
                blobSha_nonempty (storagePath cfg key) (envelope profile checks now)
                (str "Onboarding save for " ++ who) store Hdef) as Hwrite.
  cbv zeta in Hwrite. eexists. eexists.
  eapply (exec_saveHandler_written unicodeLower numberToString JSON_stringify
            toBase64 cfg kv now body key who); eauto.
Qed.

(** X18.  A second save under the same key overwrites the first: the
    store then holds, at the path of the key, the second record only
    (as if the first save had not been), and a load answers with the
    second record. *)
Theorem second_save_overwrites (now1 now2 : jsstring) (body1 body2 : value)
    (slugParam key : jsstring) (store : store_t) :
  let stored2 := JSON_stringify (envelope (getProp body2 "profile")
                                   (getProp body2 "checks") now2) in
  fromBase64 (toBase64 stored2) = stored2 ->
  truthy (getProp body1 "profile") = true -> truthy (getProp body1 "checks") = true ->
  truthy (getProp body2 "profile") = true -> truthy (getProp body2 "checks") = true ->
  slugify' (getProp (getProp body1 "profile") "discord") = Ok key ->
  slugify' (getProp (getProp body2 "profile") "discord") = Ok key ->
  slugify' (VString slugParam) = Ok key ->
  let store1 := world (exec kv (saveHandler' now1 body1) store) in
  let store2 := world (exec kv (saveHandler' now2 body2) store1) in
  store2 = <[(branch, storagePath cfg key) := toBase64 stored2]> store
  /\ outcome (exec kv (loadHandler' slugParam) store2)
     = Ok (ReplySend 200 (str "application/json") stored2).
Proof.
  intros stored2 Hcodec Hp1 Hc1 Hp2 Hc2 Hkey1 Hkey2 Hslug store1 store2.
  destruct (exec_save_on_store now1 body1 key store Hp1 Hc1 Hkey1)
    as (commit1 & made1 & Hsave1).
  assert (E1 : store1
               = <[(branch, storagePath cfg key)
                   := toBase64 (JSON_stringify
                                  (envelope (getProp body1 "profile")
                                     (getProp body1 "checks") now1))]> store).
  { unfold store1. rewrite Hsave1. reflexivity. }
  destruct (save_then_load_same_key unicodeLower numberToString JSON_stringify
              toBase64 fromBase64 bufferFromOther cfg blobSha commitId wire
              blobSha_nonempty now2 body2 slugParam key store1 Hcodec Hp2 Hc2
              Hkey2 Hslug) as (commit2 & made2 & Hsave2 & Hload).
  assert (E2 : store2 = <[(branch, storagePath cfg key) := toBase64 stored2]> store1).
  { unfold store2. rewrite Hsave2. reflexivity. }
  split.
  - rewrite E2, E1. apply insert_insert_eq.
  - rewrite E2. exact (f_equal outcome Hload).
Qed.

(** X19.  A save changes no file but that of its key: every other path
    of the store, on every branch, holds after the save what it held
    before, whether the save succeeds or not. *)
Theorem save_leaves_other_files (now : jsstring) (body : value)
    (store : store_t) (place : jsstring * jsstring) :
  (forall key, slugify' (getProp (getProp body "profile") "discord") = Ok key ->
               place <> (branch, storagePath cfg key)) ->
  world (exec kv (saveHandler' now body) store) !! place = store !! place.
Proof.
  intros Hplace.
  destruct (truthy (getProp body "profile")) eqn:Hp;
    [| rewrite saveHandler_rejects by auto; reflexivity].
  destruct (truthy (getProp body "checks")) eqn:Hc;
    [| rewrite saveHandler_rejects by auto; reflexivity].
  destruct (slugify' (getProp (getProp body "profile") "discord")) as [key | e] eqn:Hkey.
  - destruct (exec_save_on_store now body key store Hp Hc Hkey)
      as (commit & made & Hsave).
    rewrite Hsave. cbn [world]. apply lookup_insert_ne. intros E.
    apply (Hplace key); auto.
  - rewrite (exec_saveHandler_no_key unicodeLower numberToString JSON_stringify
               toBase64 cfg kv now body e store Hp Hc Hkey).
    reflexivity.
Qed.

(** The store refuses a write over a file that it holds when the write
    has no token, or the token of another content. *)
Lemma stale_put_refused (other : jsstring) (path : jsstring) (put : PutBody)
    (store : store_t) :
  store !! (body_branch put, path) = Some other ->
  body_sha put = None
  \/ (exists old, body_sha put = Some (VString (blobSha old))
                  /\ blobSha old <> blobSha other) ->
  exists refused,
    contended blobSha commitId wire other (ReqPut path put) store
    = (Ok refused, store)
    /\ ok refused = false.
Proof.
  intros Hlook Hsha. unfold contended. cbn [storeFetch]. rewrite Hlook.
  destruct Hsha as [-> | (old & -> & Hne)].
  - eexists. split; reflexivity.
  - unfold tokenMatches. rewrite bool_decide_eq_false_2 by exact Hne.
    eexists. split; reflexivity.
Qed.

(** X20.  When another client writes the file between the read and the
    write of a save, the store refuses the write, [save] answers 500
    and the other client's content stays: it is not overwritten, and
    the save is not tried again. *)
Theorem save_under_contention (now : jsstring) (body : value) (key other : jsstring)
    (store : store_t) :
  let profile := getProp body "profile" in
  let checks := getProp body "checks" in
  let path := storagePath cfg key in
  truthy profile = true -> truthy checks = true ->
  slugify' (getProp profile "discord") = Ok key ->
  (forall old, store !! (branch, path) = Some old -> blobSha old <> blobSha other) ->
  exists (msg : jsstring) (put : PutBody),
    exec (contended blobSha commitId wire other) (saveHandler' now body) store
    = MkRun (Ok (ReplyJson 500 (errorBody msg)))
            (<[(branch, path) := other]> store)
            [ReqGet path branch; ReqPut path put].
Proof.
  intros profile checks path Hp Hc Hkey Hfresh.
  destruct (who_exists _ _ _ _ Hkey) as [who Hwho].
  rewrite (exec_saveHandler_any unicodeLower numberToString JSON_stringify toBase64
             cfg (contended blobSha commitId wire other) now body key who store
             Hp Hc Hkey Hwho).
  fold profile checks path.
  assert (Hdef : envelope profile checks now <> VUndefined) by discriminate.
  set (store1 := <[(branch, path) := other]> store).
  assert (Hlook : store1 !! (branch, path) = Some other)
    by (unfold store1; apply lookup_insert_eq).
  assert (Hread : exists existing,
             exec (contended blobSha commitId wire other)
               (githubGetContent cfg path) store
             = MkRun (Ok existing) store1 [ReqGet path branch]
             /\ ((if truthy existing && truthy (getProp existing "sha")
                  then getProp existing "sha" else VNull) = VNull
                 \/ exists old,
                      store !! (branch, path) = Some old
                      /\ (if truthy existing && truthy (getProp existing "sha")
                          then getProp existing "sha" else VNull)
                         = VString (blobSha old))).
  { rewrite exec_githubGetContent. unfold contended. cbn [storeFetch].
    destruct (store !! (branch, path)) as [old |] eqn:Hold.
    - eexists. split; [reflexivity |]. right. exists old. split; [reflexivity |].
      change (getProp (VObject _) "sha") with (VString (blobSha old)).
      rewrite (truthy_string _ (blobSha_nonempty old)). reflexivity.
    - eexists. split; [reflexivity |]. left. reflexivity. }
  destruct Hread as (existing & Hread & Hsha).
  rewrite (exec_upsert_after_read JSON_stringify toBase64 cfg _ path _ _ _ store
             store1 _ Hdef Hread).
  match goal with
  | |- context [contended _ _ _ _ (ReqPut path ?b) store1] => set (put := b)
  end.
  destruct (stale_put_refused other path put store1 Hlook) as (refused & Hput & Hok).
  { unfold put, upsertBody. cbn [body_sha].
    destruct Hsha as [-> | (old & Hold & ->)]; [left; reflexivity |].
    right. exists old. rewrite (truthy_string _ (blobSha_nonempty old)). eauto. }
  rewrite Hput. cbn [fst snd outcome world calls app]. rewrite Hok. cbn [negb].
  eexists. exists put. reflexivity.
Qed.

End StoreRuns.

(** ** Start-up *)

(** X21.  Start-up fails exactly when the token, the owner or the
    repository is not set or is empty. *)
Theorem startup_fatal_iff (env : gmap jsstring jsstring) :
  startup env = None
  <-> exists name, In name [str "GITHUB_TOKEN"; str "GITHUB_OWNER"; str "GITHUB_REPO"]
                   /\ (env !! name = None \/ env !! name = Some []).
Proof.
  unfold startup.
  assert (Hunset : forall v : option jsstring,
             unset v = true <-> v = None \/ v = Some []).
  { intros [[| c t] |]; simpl; split; intros H; auto; try discriminate;
      destruct H; discriminate. }
  split.
  - intros H.
    destruct (unset (env !! str "GITHUB_TOKEN")) eqn:Et;
      [exists (str "GITHUB_TOKEN"); split; [simpl; auto | apply Hunset, Et] |].
    destruct (unset (env !! str "GITHUB_OWNER")) eqn:Eo;
      [exists (str "GITHUB_OWNER"); split; [simpl; auto | apply Hunset, Eo] |].
    destruct (unset (env !! str "GITHUB_REPO")) eqn:Er;
      [exists (str "GITHUB_REPO"); split; [simpl; auto | apply Hunset, Er] |].
    discriminate.
  - intros (name & Hin & Hmiss). apply Hunset in Hmiss.
    destruct Hin as [<- | [<- | [<- | []]]]; rewrite Hmiss;
      rewrite ?orb_true_r; reflexivity.
Qed.

(** X22.  Without a secret in the environment (not set, or empty) the
    application that starts passes every request to its route: no
    request is answered 401. *)
Theorem startup_without_secret
    (unicodeLower : jsstring -> jsstring) (numberToString : float -> jsstring)
    (JSON_stringify : value -> jsstring) (toBase64 fromBase64 : jsstring -> jsstring)
    (bufferFromOther : value -> Result jsstring)
    (env : gmap jsstring jsstring) (boot : Boot) (now : jsstring) (req : HttpRequest) :
  startup env = Some boot ->
  env !! str "API_KEY" = None \/ env !! str "API_KEY" = Some [] ->
  app unicodeLower numberToString JSON_stringify toBase64 fromBase64 bufferFromOther
    (settings boot) now req
  = route unicodeLower numberToString JSON_stringify toBase64 fromBase64
      bufferFromOther (settings boot) now (endpoint req).
Proof.
  unfold startup. intros Hboot Hkey.
  destruct (unset _ || unset _ || unset _); [discriminate |].
  injection Hboot as <-. apply app_admitted. left. cbn [settings API_KEY].
  destruct Hkey as [-> | ->]; reflexivity.
Qed.

(** ** The further properties at concrete requests *)

Lemma load_backend_failure_witness :
  exec scripted
    (loadHandler Sample.lower Sample.numberText Sample.decode Sample.fromOther
       defaultConfig (str "Ann Bee"))
    [Ok (MkResponse 503 (str "busy") None)]
  = MkRun (Ok (ReplyJson 500 (errorBody (str "GitHub GET failed: 503 busy")))) []
      [ReqGet (storagePath defaultConfig (str "ann-bee")) (str "main")].
Proof.
  apply (proj1 (load_backend_failure Sample.lower Sample.numberText Sample.decode
                  Sample.fromOther defaultConfig scripted (str "Ann Bee")
                  (str "ann-bee") [Ok (MkResponse 503 (str "busy") None)] eq_refl)
           (MkResponse 503 (str "busy") None) []).
  - reflexivity.
  - discriminate.
  - reflexivity.
Defined.

Lemma load_falsy_document_not_found_witness :
  exec scripted
    (loadHandler Sample.lower Sample.numberText Sample.decode Sample.fromOther
       defaultConfig (str "Ann Bee"))
    [Ok (MkResponse 200 (str "null") (Some VNull))]
  = MkRun (Ok notFound) []
      [ReqGet (storagePath defaultConfig (str "ann-bee")) (str "main")].
Proof.
  eapply (load_falsy_document_not_found Sample.lower Sample.numberText Sample.decode
           Sample.fromOther defaultConfig scripted (str "Ann Bee") (str "ann-bee")
           (MkResponse 200 (str "null") (Some VNull)) VNull); reflexivity.
Defined.

Lemma load_passes_content_through_witness :
  exec scripted
    (loadHandler Sample.lower Sample.numberText Sample.decode Sample.fromOther
       defaultConfig (str "Ann Bee"))
    [Ok (MkResponse 200 []
           (Some (VObject [(str "content", VString (str "not json"))])))]
  = MkRun (Ok (ReplySend 200 (str "application/json") (Sample.decode (str "not json"))))
      [] [ReqGet (storagePath defaultConfig (str "ann-bee")) (str "main")].
Proof.
  eapply (load_passes_content_through Sample.lower Sample.numberText Sample.decode
           Sample.fromOther defaultConfig scripted (str "Ann Bee") (str "ann-bee")
           (str "not json")
           (MkResponse 200 []
              (Some (VObject [(str "content", VString (str "not json"))])))
           (VObject [(str "content", VString (str "not json"))]));
    try reflexivity; discriminate.
Defined.

Lemma save_success_means_written_witness :
  exists key commit put,
    slugify Sample.lower Sample.numberText
      (getProp (getProp Sample.annBee "profile") "discord") = Ok key
    /\ ReplyJson 200
         (VObject [(str "ok", VBool true);
                   (str "path", VString (str "saves/ann-bee.json"));
                   (str "commit", VNull)])
       = saved (storagePath defaultConfig key) commit
    /\ calls (exec scripted
                (saveHandler Sample.lower Sample.numberText Sample.stringify
                   Sample.encode defaultConfig Sample.now Sample.annBee)
                Sample.terse)
       = [ReqGet (storagePath defaultConfig key) (GITHUB_BRANCH defaultConfig);
          ReqPut (storagePath defaultConfig key) put]
    /\ body_content put
       = Sample.encode
           (Sample.stringify
              (envelope (getProp Sample.annBee "profile")
                 (getProp Sample.annBee "checks") Sample.now))
    /\ body_branch put = GITHUB_BRANCH defaultConfig.
Proof.
  apply (save_success_means_written Sample.lower Sample.numberText Sample.stringify
           Sample.encode defaultConfig scripted Sample.now Sample.annBee).
  reflexivity.
Defined.

Lemma save_read_failure_witness :
  exec scripted
    (saveHandler Sample.lower Sample.numberText Sample.stringify Sample.encode
       defaultConfig Sample.now Sample.annBee)
    [Ok (MkResponse 403 (str "forbidden") None)]
  = MkRun (Ok (ReplyJson 500 (errorBody (str "GitHub GET failed: 403 forbidden")))) []
      [ReqGet (storagePath defaultConfig (str "ann-bee")) (str "main")].
Proof.
  eapply (save_read_failure Sample.lower Sample.numberText Sample.stringify
           Sample.encode defaultConfig scripted Sample.now Sample.annBee
           (str "ann-bee") (MkResponse 403 (str "forbidden") None));
    try reflexivity; discriminate.
Defined.

Lemma save_write_failure_witness :
  exists put,
    exec scripted
      (saveHandler Sample.lower Sample.numberText Sample.stringify Sample.encode
         defaultConfig Sample.now Sample.annBee)
      [Ok (MkResponse 404 [] None); Ok (MkResponse 409 (str "conflict") None)]
    = MkRun (Ok (ReplyJson 500 (errorBody (str "GitHub PUT failed: 409 conflict")))) []
        [ReqGet (storagePath defaultConfig (str "ann-bee")) (str "main"); put].
Proof.
  eexists.
  eapply (save_write_failure Sample.lower Sample.numberText Sample.stringify
           Sample.encode defaultConfig scripted Sample.now Sample.annBee
           (str "ann-bee") (str "Ann Bee") (MkResponse 404 [] None)
           (MkResponse 409 (str "conflict") None)); reflexivity.
Defined.

Lemma save_unconvertible_discord_witness :
  exists msg,
    exec scripted
      (saveHandler Sample.lower Sample.numberText Sample.stringify Sample.encode
         defaultConfig Sample.now
         (VObject [(str "profile",
                    VObject [(str "discord",
                              VObject [(str "toString", VString (str "x"))])]);
                   (str "checks", VObject [])]))
      Sample.terse
    = MkRun (Ok (ReplyJson 500 (errorBody msg))) Sample.terse [].
Proof.
  apply (save_unconvertible_discord Sample.lower Sample.numberText Sample.stringify
           Sample.encode defaultConfig scripted Sample.now _
           [(str "toString", VString (str "x"))]);
    try reflexivity; discriminate.
Defined.

Lemma save_anonymous_uses_player_witness :
  let body := VObject [(str "profile", VObject [(str "name", VString (str "Ann"))]);
                       (str "checks", VObject [])] in
  let path := storagePath defaultConfig (str "player") in
  calls (exec scripted
           (saveHandler Sample.lower Sample.numberText Sample.stringify
              Sample.encode defaultConfig Sample.now body)
           Sample.terse)
  = [ReqGet path (GITHUB_BRANCH defaultConfig);
     ReqPut path
       (upsertBody defaultConfig path
          (Sample.encode
             (Sample.stringify
                (envelope (getProp body "profile") (getProp body "checks")
                   Sample.now)))
          (str "Onboarding save for player") VNull)].
Proof.
  intros body path.
  apply (proj1 (save_anonymous_uses_player Sample.lower Sample.numberText
                  Sample.stringify Sample.encode defaultConfig scripted Sample.now
                  body Sample.terse eq_refl eq_refl eq_refl) VNull).
  reflexivity.
Defined.

Lemma slugify_key_is_path_safe_witness :
  Matches slugPattern (str "a-b-c") /\ ~ In 47 (str "a-b-c") /\ ~ In 46 (str "a-b-c").
Proof.
  apply (slugify_key_is_path_safe Sample.lower Sample.numberText
           (VArray [VString (str "../A"); VNull; VString (str "b/c.")])).
  reflexivity.
Defined.

Lemma slugify_fallback_witness :
  slugify Sample.lower Sample.numberText (VBool false) = Ok (str "player")
  /\ slugify Sample.lower Sample.numberText (VString (str " ?!/.. ")) = Ok (str "player").
Proof.
  split.
  - apply (proj1 (slugify_fallback Sample.lower Sample.numberText)). reflexivity.
  - apply (proj2 (slugify_fallback Sample.lower Sample.numberText)). reflexivity.
Defined.

Lemma slugify_keeps_letters_and_digits_witness :
  exists key,
    slugify Sample.lower Sample.numberText (VString (str " Ann_Bee #42 ")) = Ok key
    /\ List.filter isAlnum key
       = List.filter isAlnum (toLowerCase Sample.lower (trim (str " Ann_Bee #42 "))).
Proof.
  apply (slugify_keeps_letters_and_digits Sample.lower Sample.numberText).
  discriminate.
Defined.

Lemma slugify_ignores_ascii_case_witness :
  slugify Sample.lower Sample.numberText (VString (map asciiLower (str "Ann BEE")))
  = slugify Sample.lower Sample.numberText (VString (str "Ann BEE")).
Proof.
  apply (slugify_ignores_ascii_case Sample.lower Sample.numberText). reflexivity.
Defined.

Lemma second_save_overwrites_witness :
  let second := VObject [(str "profile",
                          VObject [(str "discord", VString (str "ann bee"))]);
                         (str "checks", VObject [(str "done", VBool false)])] in
  let stored2 := Sample.stringify
                   (envelope (getProp second "profile") (getProp second "checks")
                      Sample.now) in
  let kv := storeFetch Sample.sha Sample.commit Sample.onWire in
  let save body := saveHandler Sample.lower Sample.numberText Sample.stringify
                     Sample.encode defaultConfig Sample.now body in
  let store1 := world (exec kv (save Sample.annBee) ∅) in
  let store2 := world (exec kv (save second) store1) in
  store2 = <[(GITHUB_BRANCH defaultConfig, storagePath defaultConfig (str "ann-bee"))
             := Sample.encode stored2]> ∅
  /\ outcome (exec kv
                (loadHandler Sample.lower Sample.numberText Sample.decode
                   Sample.fromOther defaultConfig (str "Ann-Bee")) store2)
     = Ok (ReplySend 200 (str "application/json") stored2).
Proof.
  apply (second_save_overwrites Sample.lower Sample.numberText Sample.stringify
           Sample.encode Sample.decode Sample.fromOther defaultConfig
           Sample.sha Sample.commit Sample.onWire);
    try reflexivity.
  intros content. discriminate.
Defined.

Lemma save_leaves_other_files_witness :
  world (exec (storeFetch Sample.sha Sample.commit Sample.onWire)
           (saveHandler Sample.lower Sample.numberText Sample.stringify Sample.encode
              defaultConfig Sample.now Sample.annBee)
           {[ (str "main", str "saves/bob.json") := str "Ym9i" ]})
    !! (str "main", str "saves/bob.json")
  = ({[ (str "main", str "saves/bob.json") := str "Ym9i" ]}
       : gmap (jsstring * jsstring) jsstring) !! (str "main", str "saves/bob.json").
Proof.
  apply (save_leaves_other_files Sample.lower Sample.numberText Sample.stringify
           Sample.encode defaultConfig Sample.sha Sample.commit Sample.onWire).
  - intros content. discriminate.
  - intros key [= <-]. discriminate.
Defined.

Lemma save_under_contention_witness :
  exists (msg : jsstring) (put : PutBody),
    exec (contended Sample.sha Sample.commit Sample.onWire (str "b3RoZXI"))
      (saveHandler Sample.lower Sample.numberText Sample.stringify Sample.encode
         defaultConfig Sample.now Sample.annBee)
      {[ (str "main", str "saves/ann-bee.json") := str "b2xk" ]}
    = MkRun (Ok (ReplyJson 500 (errorBody msg)))
        (<[(GITHUB_BRANCH defaultConfig, storagePath defaultConfig (str "ann-bee"))
           := str "b3RoZXI"]>
           {[ (str "main", str "saves/ann-bee.json") := str "b2xk" ]})
        [ReqGet (storagePath defaultConfig (str "ann-bee")) (GITHUB_BRANCH defaultConfig);
         ReqPut (storagePath defaultConfig (str "ann-bee")) put].
Proof.
  apply (save_under_contention Sample.lower Sample.numberText Sample.stringify
           Sample.encode defaultConfig Sample.sha Sample.commit Sample.onWire).
  - intros content. discriminate.
  - reflexivity.
  - reflexivity.
  - reflexivity.
  - intros old Hold. vm_compute in Hold. injection Hold as <-. discriminate.
Defined.

Lemma startup_without_secret_witness :
  let env : gmap jsstring jsstring :=
    {[ str "GITHUB_TOKEN" := str "ghp_x"; str "GITHUB_OWNER" := str "mwz";
       str "GITHUB_REPO" := str "saves" ]} in
  exists boot,
    startup env = Some boot
    /\ app Sample.lower Sample.numberText Sample.stringify Sample.encode Sample.decode
         Sample.fromOther (settings boot) Sample.now (MkHttpRequest None GetHealth)
       = route Sample.lower Sample.numberText Sample.stringify Sample.encode
           Sample.decode Sample.fromOther (settings boot) Sample.now GetHealth.
Proof.
  intros env. eexists. split; [vm_compute; reflexivity |].
  apply (startup_without_secret Sample.lower Sample.numberText Sample.stringify
           Sample.encode Sample.decode Sample.fromOther env _ Sample.now
           (MkHttpRequest None GetHealth)).
  - vm_compute. reflexivity.
  - left. vm_compute. reflexivity.
Defined.

(** ** The server *)

Section ServerRuns.

Variable unicodeLower : jsstring -> jsstring.
Variable numberToString : float -> jsstring.
Variable JSON_stringify : value -> jsstring.
Variable toBase64 : jsstring -> jsstring.
Variable fromBase64 : jsstring -> jsstring.
Variable bufferFromOther : value -> Result jsstring.
Variable cfg : Config.

Local Abbreviation route' :=
  (route unicodeLower numberToString JSON_stringify toBase64 fromBase64
     bufferFromOther cfg).
Local Abbreviation app' :=
  (app unicodeLower numberToString JSON_stringify toBase64 fromBase64
     bufferFromOther cfg).
Local Abbreviation server' :=
  (server unicodeLower numberToString JSON_stringify toBase64 fromBase64
     bufferFromOther cfg).

(** C4, amended.  With a non-empty [API_KEY], every request that
    reaches the shared-secret check (it is not a preflight, which
    [cors()] answers, and its body was accepted by the JSON parser), on
    every route and on a path without route, whose [x-api-key] header
    is absent or is not the secret, is answered 401: the program is that
    bare reply, so no key is derived and the backend is not called.
    With an empty [API_KEY] such a request goes on unchanged, to its
    route or to the 404 of a path without route. *)
Theorem secret_gate_behind_parsers {W : Type}
    (transport : Request -> W -> Result Response * W)
    (now : jsstring) (inc : Incoming) (body : value) (w : W) :
  method inc <> MOptions -> payload inc = Parsed body ->
  (API_KEY cfg <> [] -> xApiKey inc <> Some (API_KEY cfg) ->
     server' now inc = Ret (Handled unauthorized)
     /\ exec transport (server' now inc) w = MkRun (Ok (Handled unauthorized)) w [])
  /\ (API_KEY cfg = [] ->
      server' now inc
      = match routing (method inc) (target inc) body with
        | Some ep => let* reply := route' now ep in Ret (Handled reply)
        | None => Ret NoRoute
        end).
Proof.
  intros Hmethod Hbody. split.
  - intros Hkey Hne.
    assert (E : server' now inc = Ret (Handled unauthorized)).
    { unfold server. rewrite Hbody.
      destruct (method inc); [| | congruence];
        (destruct (routing _ (target inc) body) as [ep |];
         [ unfold app; cbn [apiKeyHeader]
         | ]);
        destruct (API_KEY cfg) as [| c key]; try congruence;
        rewrite bool_decide_eq_false_2 by exact Hne; reflexivity. }
    rewrite E. split; reflexivity.
  - intros E. unfold server. rewrite Hbody.
    destruct (method inc); [| | congruence];
      (destruct (routing _ (target inc) body) as [ep |];
       [ unfold app; rewrite E; reflexivity | rewrite E; reflexivity ]).
Qed.


End ServerRuns.

Lemma secret_gate_behind_parsers_witness :
  let inc := MkIncoming MPost OnSave (Some (str "guess")) (Parsed Sample.annBee) in
  (server Sample.lower Sample.numberText Sample.stringify Sample.encode Sample.decode
     Sample.fromOther Sample.secretConfig Sample.now inc
   = Ret (Handled unauthorized)
   /\ exec scripted
        (server Sample.lower Sample.numberText Sample.stringify Sample.encode
           Sample.decode Sample.fromOther Sample.secretConfig Sample.now inc)
        Sample.terse
      = MkRun (Ok (Handled unauthorized)) Sample.terse [])
  /\ server Sample.lower Sample.numberText Sample.stringify Sample.encode Sample.decode
       Sample.fromOther defaultConfig Sample.now inc
     = (let* reply := route Sample.lower Sample.numberText Sample.stringify
                        Sample.encode Sample.decode Sample.fromOther defaultConfig
                        Sample.now (PostSave Sample.annBee) in
        Ret (Handled reply)).
Proof.
  intros inc. split.
  - apply (secret_gate_behind_parsers Sample.lower Sample.numberText Sample.stringify
             Sample.encode Sample.decode Sample.fromOther Sample.secretConfig
             scripted Sample.now inc Sample.annBee Sample.terse);
      try discriminate; reflexivity.
  - apply (proj2 (secret_gate_behind_parsers Sample.lower Sample.numberText
                    Sample.stringify Sample.encode Sample.decode Sample.fromOther
                    defaultConfig scripted Sample.now inc Sample.annBee Sample.terse
                    ltac:(discriminate) eq_refl)).
    reflexivity.
Defined.

(** C4 as stated fails: with a secret configured, a request without
    [x-api-key] whose body is not JSON is answered 400 by the body
    parser, and a preflight without [x-api-key] is answered 204 by
    [cors()]; neither is answered 401. *)
Lemma keyless_request_not_unauthorized :
  (outcome (exec scripted
              (server Sample.lower Sample.numberText Sample.stringify Sample.encode
                 Sample.decode Sample.fromOther Sample.secretConfig Sample.now
                 (MkIncoming MPost OnSave None Unparseable))
              Sample.terse)
   = Ok BadBody
   /\ Ok BadBody <> (Ok (Handled unauthorized) : Result Served))
  /\ (outcome (exec scripted
                 (server Sample.lower Sample.numberText Sample.stringify Sample.encode
                    Sample.decode Sample.fromOther Sample.secretConfig Sample.now
                    (MkIncoming MOptions OnSave None (Parsed VUndefined)))
                 Sample.terse)
      = Ok Preflight
      /\ Ok Preflight <> (Ok (Handled unauthorized) : Result Served)).
Proof. repeat split; discriminate. Qed.

(** C9 as stated fails: a write that the store answers with success but
    with the document [null], or with no JSON at all (an empty 204), has
    named no commit, and [save] answers 500 although the file was
    written. *)
Lemma save_fails_without_document :
  let save := saveHandler Sample.lower Sample.numberText Sample.stringify
                Sample.encode defaultConfig Sample.now Sample.annBee in
  let written := [ReqGet (str "saves/ann-bee.json") (str "main");
                  ReqPut (str "saves/ann-bee.json")
                    (MkPutBody (str "Onboarding save for Ann Bee")
                       (Sample.stringify
                          (envelope (getProp Sample.annBee "profile")
                             (getProp Sample.annBee "checks") Sample.now))
                       (str "main") None)] in
  exec scripted save
    [Ok (MkResponse 404 [] None); Ok (MkResponse 200 (str "null") (Some VNull))]
  = MkRun (Ok (ReplyJson 500
                 (errorBody (str "Cannot read properties of null or undefined"))))
      [] written
  /\ exec scripted save
       [Ok (MkResponse 404 [] None); Ok (MkResponse 204 [] None)]
     = MkRun (Ok (ReplyJson 500 (errorBody (str "Unexpected token in JSON"))))
         [] written
  /\ ok (MkResponse 200 (str "null") (Some VNull)) = true
  /\ ok (MkResponse 204 [] None) = true.
Proof. vm_compute. repeat split; reflexivity. Qed.
